(** * RFC 2818 hostname verification and the cipher wrappers of GnuTLS

    A shallow embedding of [lib/x509/rfc2818_hostname.c] and of the
    encrypt/decrypt wrappers of [lib/gnutls_cipher_int.c], with the
    properties of the hostname matcher proved over it.

    Conventions of the embedding:
    - a C [int] is a [Z]; the loop counter [i] is incremented with the
      two's-complement wrap-around written out ([int_incr]);
    - a C string is the [string] of the characters before its terminating
      NUL; a pointer into a string is the suffix it points at, and [NULL]
      is [None];
    - a function that returns [int] to be tested as a truth value returns
      [0] or [1] in [Z], as the source does;
    - the certificate-parsing layer (x509.h, dn.h) and the crypto backend
      (mcrypt or gcrypt) are outside these two files: they are taken as
      interfaces ([X509Parser], [CipherBackend]);
    - the unbounded [for] loop of the matcher runs on fuel: one unit per
      execution of the loop body, [None] when the fuel runs out first. *)

From Stdlib Require Import ZArith String Ascii List Bool Lia.
Import ListNotations.
Local Open Scope Z_scope.

(** ** The libc string functions used by the matcher *)

Module CString.

(** [strlen]: the number of characters before the terminator. *)
Definition strlen (s : string) : Z := Z.of_nat (String.length s).

(** Characters compare as [unsigned char]. *)
Definition uchar (c : ascii) : Z := Z.of_N (N_of_ascii c).

(** The sign of the difference of two characters: ISO C fixes only the sign
    of what [strcmp] and [strncmp] return, and the model returns it. *)
Definition char_diff (c1 c2 : ascii) : Z :=
  if uchar c1 <? uchar c2 then -1 else 1.

(** [strcmp]: [0] when the strings are equal, otherwise the sign of the first
    difference; a string that ends first is the smaller one. *)
Fixpoint strcmp (s1 s2 : string) : Z :=
  match s1, s2 with
  | EmptyString, EmptyString => 0
  | EmptyString, String _ _ => -1
  | String _ _, EmptyString => 1
  | String c1 t1, String c2 t2 =>
      if Ascii.eqb c1 c2 then strcmp t1 t2 else char_diff c1 c2
  end.

(** [strncmp]: as [strcmp], over at most [n] characters. *)
Fixpoint strncmp (s1 s2 : string) (n : nat) : Z :=
  match n with
  | O => 0
  | S n' =>
      match s1, s2 with
      | EmptyString, EmptyString => 0
      | EmptyString, String _ _ => -1
      | String _ _, EmptyString => 1
      | String c1 t1, String c2 t2 =>
          if Ascii.eqb c1 c2 then strncmp t1 t2 n' else char_diff c1 c2
      end
  end.

(** [strchr]: the suffix that starts at the first occurrence of [c], or
    [None] for the null pointer. *)
Fixpoint strchr (s : string) (c : ascii) : option string :=
  match s with
  | EmptyString => None
  | String a t => if Ascii.eqb a c then Some s else strchr t c
  end.

(** Pointer arithmetic [s + n] inside a string: the suffix after [n]
    characters. *)
Fixpoint ptr_add (s : string) (n : nat) : string :=
  match n, s with
  | O, _ => s
  | S n', String _ t => ptr_add t n'
  | S _, EmptyString => EmptyString
  end.

End CString.

(** ** lib/x509/rfc2818_hostname.c *)

Module Hostname.
Import CString.

(** [hostname_compare]: compare a name of the certificate with the hostname,
    taking account of wildcards; 1 on success, 0 otherwise. *)
Definition hostname_compare (certname hostname : string) : Z :=
  if (strlen certname =? 0) || (strlen hostname =? 0) then 0
  else if (strlen certname >? 2) && (strncmp certname "*." 2 =? 0) then
    (* a wildcard certificate *)
    let cmpstr1 := ptr_add certname 1 in
    (* find the first dot in hostname, compare from there on *)
    match strchr hostname "."%char with
    | None => 0
    | Some cmpstr2 => if strcmp cmpstr1 cmpstr2 =? 0 then 1 else 0
    end
  else if strcmp certname hostname =? 0 then 1 else 0.

(** The comparison of the specification, in its words: false when either
    string is empty; for a [certname] longer than two characters that begins
    with "*.", true iff [hostname] has a '.' and [certname] without its
    leading '*' equals [hostname] from its first '.' on; otherwise true iff
    the two strings are equal. *)
Definition WildcardCompare (certname hostname : string) : bool :=
  if String.eqb certname EmptyString || String.eqb hostname EmptyString
  then false
  else if Nat.ltb 2 (String.length certname) && String.prefix "*." certname then
    let certSuffix :=
      String.substring 1 (String.length certname - 1) certname in
    match String.index 0 "." hostname with
    | None => false
    | Some k =>
        let hostSuffix :=
          String.substring k (String.length hostname - k) hostname in
        String.eqb certSuffix hostSuffix
    end
  else String.eqb certname hostname.

(** *** The certificate-parsing layer

    The matcher asks two families of accessors (x509.h, dn.h, compat8.h) for
    the subjectAltName at a sequence number and for the subject's common
    name.  Each accessor is a function of its arguments: it returns its
    [int] result together with the string it leaves in the caller's
    buffer.  The value of [GNUTLS_SAN_DNSNAME] and the OID of the common
    name are declared in headers outside these files. *)

Definition MAX_CN : Z := 256.

(** [gnutls_x509_dn]: of the fields of the structure the matcher reads
    [common_name] only. *)
Record gnutls_x509_dn := { common_name : string }.

Class X509Parser := {
  GNUTLS_SAN_DNSNAME : Z;
  OID_X520_COMMON_NAME : string;
  gnutls_datum : Type;
  gnutls_x509_certificate : Type;
  (* (cert, seq, sizeof buffer) |-> (result, buffer) *)
  gnutls_x509_extract_certificate_subject_alt_name :
    gnutls_datum -> Z -> Z -> Z * string;
  (* cert |-> (result, dn) *)
  gnutls_x509_extract_certificate_dn :
    gnutls_datum -> Z * gnutls_x509_dn;
  (* (cert, seq, sizeof buffer) |-> (result, buffer) *)
  gnutls_x509_certificate_get_subject_alt_name :
    gnutls_x509_certificate -> Z -> Z -> Z * string;
  (* (cert, oid, indx, sizeof buffer) |-> (result, buffer) *)
  gnutls_x509_certificate_get_dn_by_oid :
    gnutls_x509_certificate -> string -> Z -> Z -> Z * string
}.

(** *** Machine integers *)

Definition INT_MAX : Z := 2147483647.

(** The value of an [int] after two's-complement wrap-around. *)
Definition int_wrap (z : Z) : Z := (z + 2147483648) mod 4294967296 - 2147483648.

(** [i++] on an [int].  ISO C leaves the overflow at [INT_MAX] undefined;
    the model takes the wrap-around of the usual compilers. *)
Definition int_incr (z : Z) : Z := int_wrap (z + 1).

(** *** The local variables of the matcher

    [trace] is not a variable of the source: it records, in order, the
    requests made to the parsing layer, so that the theorems can say which
    entries were examined and whether the common name was consulted. *)

Inductive event :=
| SanRequested (seq : Z)   (* subjectAltName asked at this sequence number *)
| DnRequested.             (* subject DN / common name asked *)

Record locals := {
  i : Z;
  ret : Z;
  found_dnsname : Z;
  trace : list event
}.

(** How control leaves the [for] loop: by [return v] from inside the body,
    or by the loop condition failing. *)
Inductive flow :=
| Return (v : Z) (st : locals)
| LoopExit (st : locals).

Definition flow_locals (fl : flow) : locals :=
  match fl with Return _ st => st | LoopExit st => st end.

Definition initial : locals :=
  {| i := 0; ret := 0; found_dnsname := 0; trace := [] |}.

(** The number of subjectAltName requests in a trace. *)
Fixpoint san_requests (tr : list event) : nat :=
  match tr with
  | [] => O
  | SanRequested _ :: tr' => S (san_requests tr')
  | DnRequested :: tr' => san_requests tr'
  end.

Section EntryPoints.
Context {parser : X509Parser}.

(** *** gnutls_x509_check_certificates_hostname (DER encoded certificate) *)

(** The loop [for (i = 0; !(ret < 0); i++) { ... }], entered at its
    condition with the locals [st]. *)
Fixpoint check_certificates_hostname_loop (fuel : nat) (cert : gnutls_datum)
    (hostname : string) (st : locals) : option flow :=
  if ret st <? 0 then Some (LoopExit st)
  else
    match fuel with
    | O => None
    | S fuel' =>
        let dnsnamesize := MAX_CN in
        let '(r, dnsname) :=
          gnutls_x509_extract_certificate_subject_alt_name
            cert (i st) dnsnamesize in
        let tr := trace st ++ [SanRequested (i st)] in
        if r =? GNUTLS_SAN_DNSNAME then
          let found := 1 in
          if negb (hostname_compare dnsname hostname =? 0) then
            Some (Return 1 {| i := i st; ret := r;
                              found_dnsname := found; trace := tr |})
          else
            check_certificates_hostname_loop fuel' cert hostname
              {| i := int_incr (i st); ret := r;
                 found_dnsname := found; trace := tr |}
        else
          check_certificates_hostname_loop fuel' cert hostname
            {| i := int_incr (i st); ret := r;
               found_dnsname := found_dnsname st; trace := tr |}
    end.

Definition gnutls_x509_check_certificates_hostname (fuel : nat)
    (cert : gnutls_datum) (hostname : string) : option (Z * locals) :=
  match check_certificates_hostname_loop fuel cert hostname initial with
  | None => None
  | Some (Return v st) => Some (v, st)
  | Some (LoopExit st) =>
      if found_dnsname st =? 0 then
        (* not got the necessary extension, use CN instead *)
        let '(r, dn) := gnutls_x509_extract_certificate_dn cert in
        let st' := {| i := i st; ret := ret st;
                      found_dnsname := found_dnsname st;
                      trace := trace st ++ [DnRequested] |} in
        if negb (r =? 0) then
          (* got an error, can't find a name *)
          Some (0, st')
        else if negb (hostname_compare (common_name dn) hostname =? 0) then
          Some (1, st')
        else
          (* not found a matching name *)
          Some (0, st')
      else Some (0, st)
  end.

(** *** gnutls_x509_certificate_check_hostname (parsed certificate) *)

Definition sizeof_dnsname : Z := MAX_CN.

Fixpoint certificate_check_hostname_loop (fuel : nat)
    (cert : gnutls_x509_certificate) (hostname : string) (st : locals)
    : option flow :=
  if ret st <? 0 then Some (LoopExit st)
  else
    match fuel with
    | O => None
    | S fuel' =>
        let dnsnamesize := sizeof_dnsname in
        let '(r, dnsname) :=
          gnutls_x509_certificate_get_subject_alt_name
            cert (i st) dnsnamesize in
        let tr := trace st ++ [SanRequested (i st)] in
        if r =? GNUTLS_SAN_DNSNAME then
          let found := 1 in
          if negb (hostname_compare dnsname hostname =? 0) then
            Some (Return 1 {| i := i st; ret := r;
                              found_dnsname := found; trace := tr |})
          else
            certificate_check_hostname_loop fuel' cert hostname
              {| i := int_incr (i st); ret := r;
                 found_dnsname := found; trace := tr |}
        else
          certificate_check_hostname_loop fuel' cert hostname
            {| i := int_incr (i st); ret := r;
               found_dnsname := found_dnsname st; trace := tr |}
    end.

Definition gnutls_x509_certificate_check_hostname (fuel : nat)
    (cert : gnutls_x509_certificate) (hostname : string)
    : option (Z * locals) :=
  match certificate_check_hostname_loop fuel cert hostname initial with
  | None => None
  | Some (Return v st) => Some (v, st)
  | Some (LoopExit st) =>
      if found_dnsname st =? 0 then
        (* not got the necessary extension, use CN instead *)
        let dnsnamesize := sizeof_dnsname in
        let '(r, dnsname) :=
          gnutls_x509_certificate_get_dn_by_oid
            cert OID_X520_COMMON_NAME 0 dnsnamesize in
        let st' := {| i := i st; ret := ret st;
                      found_dnsname := found_dnsname st;
                      trace := trace st ++ [DnRequested] |} in
        if negb (r =? 0) then
          (* got an error, can't find a name *)
          Some (0, st')
        else if negb (hostname_compare dnsname hostname =? 0) then
          Some (1, st')
        else
          (* not found a matching name *)
          Some (0, st')
      else Some (0, st)
  end.

(** *** What each entry point is told by the parsing layer *)

(** The outcome of the subjectAltName request at sequence number [k], and of
    the common-name request, as the first entry point receives them. *)
Definition encoded_san (cert : gnutls_datum) (k : Z) : Z * string :=
  gnutls_x509_extract_certificate_subject_alt_name cert k MAX_CN.

Definition encoded_cn (cert : gnutls_datum) : Z * string :=
  let '(r, dn) := gnutls_x509_extract_certificate_dn cert in
  (r, common_name dn).

(** The same, as the second entry point receives them. *)
Definition handle_san (cert : gnutls_x509_certificate) (k : Z) : Z * string :=
  gnutls_x509_certificate_get_subject_alt_name cert k sizeof_dnsname.

Definition handle_cn (cert : gnutls_x509_certificate) : Z * string :=
  gnutls_x509_certificate_get_dn_by_oid
    cert OID_X520_COMMON_NAME 0 sizeof_dnsname.

(** [entry_point san cn loop verify]: [verify] is one of the two public
    functions applied to a certificate, [loop] is its traversal, and [san]
    and [cn] are the outcomes the parsing layer reports for that
    certificate. *)
Inductive entry_point :
  (Z -> Z * string) -> Z * string ->
  (nat -> string -> locals -> option flow) ->
  (nat -> string -> option (Z * locals)) -> Prop :=
| from_encoded (cert : gnutls_datum) :
    entry_point (encoded_san cert) (encoded_cn cert)
      (fun fuel => check_certificates_hostname_loop fuel cert)
      (fun fuel => gnutls_x509_check_certificates_hostname fuel cert)
| from_handle (cert : gnutls_x509_certificate) :
    entry_point (handle_san cert) (handle_cn cert)
      (fun fuel => certificate_check_hostname_loop fuel cert)
      (fun fuel => gnutls_x509_certificate_check_hostname fuel cert).

(** *** The traversal over reported outcomes

    The two loops differ in the accessor they call and in nothing else; the
    properties are proved once, over the outcomes [san] and [cn]. *)

Section Outcomes.
Variable san : Z -> Z * string.
Variable cn : Z * string.
Variable hostname : string.

(** Entry [k] is of type dNSName. *)
Definition is_dns (k : Z) : bool := fst (san k) =? GNUTLS_SAN_DNSNAME.

(** Entry [k] is of type dNSName and matches the hostname. *)
Definition matches (k : Z) : bool :=
  is_dns k && negb (hostname_compare (snd (san k)) hostname =? 0).

(** The locals when the body has run on entry [i st]. *)
Definition body (st : locals) : locals :=
  {| i := i st;
     ret := fst (san (i st));
     found_dnsname := if is_dns (i st) then 1 else found_dnsname st;
     trace := trace st ++ [SanRequested (i st)] |}.

(** The body followed by [i++]. *)
Definition next (st : locals) : locals :=
  {| i := int_incr (i st);
     ret := fst (san (i st));
     found_dnsname := if is_dns (i st) then 1 else found_dnsname st;
     trace := trace st ++ [SanRequested (i st)] |}.

Fixpoint scan (fuel : nat) (st : locals) : option flow :=
  if ret st <? 0 then Some (LoopExit st)
  else
    match fuel with
    | O => None
    | S fuel' =>
        if matches (i st) then Some (Return 1 (body st))
        else scan fuel' (next st)
    end.

(** The locals with the common-name request recorded. *)
Definition ask_dn (st : locals) : locals :=
  {| i := i st; ret := ret st; found_dnsname := found_dnsname st;
     trace := trace st ++ [DnRequested] |}.

Definition cn_verdict : Z :=
  if negb (fst cn =? 0) then 0
  else if negb (hostname_compare (snd cn) hostname =? 0) then 1 else 0.

Definition matcher (fuel : nat) : option (Z * locals) :=
  match scan fuel initial with
  | None => None
  | Some (Return v st) => Some (v, st)
  | Some (LoopExit st) =>
      if found_dnsname st =? 0 then Some (cn_verdict, ask_dn st)
      else Some (0, st)
  end.

End Outcomes.

(** The sequence number passed by the [k]-th request of a traversal
    ([k] counted from 0): [k] itself up to [INT_MAX]. *)
Definition call_index (k : nat) : Z := int_wrap (Z.of_nat k).

(** The sequence numbers of the first [n] requests. *)
Definition call_indices (n : nat) : list Z := map call_index (seq 0 n).

(** The locals at the loop condition when the body has run [n] times without
    returning. *)
Definition after (san : Z -> Z * string) (n : nat) : locals :=
  {| i := call_index n;
     ret := match n with O => 0 | S m => fst (san (call_index m)) end;
     found_dnsname := if existsb (is_dns san) (call_indices n) then 1 else 0;
     trace := map SanRequested (call_indices n) |}.

End EntryPoints.

(** *** A parsing layer over explicit outcomes

    A certificate given as the list of the outcomes of its subjectAltName
    requests and the outcome of its common-name request; past the end of the
    list, and at a negative sequence number, the request fails with
    [GNUTLS_E_REQUESTED_DATA_NOT_AVAILABLE]. *)

Record listed_cert := {
  alt_names : list (Z * string);
  subject : Z * string
}.

Definition GNUTLS_E_REQUESTED_DATA_NOT_AVAILABLE : Z := -56.

Definition listed_alt_name (c : listed_cert) (seq size : Z) : Z * string :=
  if seq <? 0 then (GNUTLS_E_REQUESTED_DATA_NOT_AVAILABLE, EmptyString)
  else nth (Z.to_nat seq) (alt_names c)
           (GNUTLS_E_REQUESTED_DATA_NOT_AVAILABLE, EmptyString).

Definition listed_parser : X509Parser := {|
  GNUTLS_SAN_DNSNAME := 1;
  OID_X520_COMMON_NAME := "2.5.4.3";
  gnutls_datum := listed_cert;
  gnutls_x509_certificate := listed_cert;
  gnutls_x509_extract_certificate_subject_alt_name := listed_alt_name;
  gnutls_x509_extract_certificate_dn :=
    fun c => (fst (subject c), {| common_name := snd (subject c) |});
  gnutls_x509_certificate_get_subject_alt_name := listed_alt_name;
  gnutls_x509_certificate_get_dn_by_oid :=
    fun c _ _ _ => subject c
|}.

(** Result codes used in the examples: an rfc822Name entry, an iPAddress
    entry, and a decoding error of one entry. *)
Definition GNUTLS_SAN_RFC822NAME : Z := 2.
Definition GNUTLS_SAN_IPADDRESS : Z := 4.
Definition GNUTLS_E_ASN1_DER_ERROR : Z := -69.

(** The certificates of the examples. *)

Definition cert_two_dns : listed_cert :=
  {| alt_names := [(1, "mail.example.com"%string);
                   (1, "www.example.com"%string)];
     subject := (0, "other.example.com"%string) |}.

Definition cert_one_dns : listed_cert :=
  {| alt_names := [(1, "mail.example.com"%string)];
     subject := (0, "www.example.com"%string) |}.

Definition cert_cn_only : listed_cert :=
  {| alt_names := [];
     subject := (0, "*.example.org"%string) |}.

Definition cert_other_types : listed_cert :=
  {| alt_names := [(GNUTLS_SAN_RFC822NAME, "admin@example.com"%string);
                   (GNUTLS_SAN_IPADDRESS, "192.0.2.1"%string)];
     subject := (0, "www.example.com"%string) |}.

Definition cert_other_then_dns : listed_cert :=
  {| alt_names := [(GNUTLS_SAN_RFC822NAME, "admin@example.com"%string);
                   (1, "www.example.com"%string)];
     subject := (0, "other.example.com"%string) |}.

Definition cert_error_then_dns : listed_cert :=
  {| alt_names := [(GNUTLS_E_ASN1_DER_ERROR, EmptyString);
                   (1, "www.example.com"%string)];
     subject := (0, "other.example.com"%string) |}.

Definition cert_no_dn : listed_cert :=
  {| alt_names := [];
     subject := (GNUTLS_E_REQUESTED_DATA_NOT_AVAILABLE, EmptyString) |}.

End Hostname.

(** ** lib/gnutls_cipher_int.c *)

Module Cipher.

(** The crypto backend.  [GNUTLS_CIPHER_HANDLE] is a pointer type of the
    backend: a handle is an address.  [USE_MCRYPT] is the preprocessor
    switch between libmcrypt and libgcrypt.  A backend call works in place:
    it returns its [int] result and the buffer it leaves. *)
Class CipherBackend := {
  GNUTLS_CIPHER_FAILED : Z;
  GNUTLS_E_UNKNOWN_ERROR : Z;
  USE_MCRYPT : bool;
  (* (handle, text, textlen) |-> (result, text) *)
  mcrypt_generic : Z -> list Byte.byte -> Z -> Z * list Byte.byte;
  mdecrypt_generic : Z -> list Byte.byte -> Z -> Z * list Byte.byte;
  (* (handle, text, textlen) |-> (result, text), for the call
     (handle, text, textlen, NULL, textlen) *)
  gcry_cipher_encrypt : Z -> list Byte.byte -> Z -> Z * list Byte.byte;
  gcry_cipher_decrypt : Z -> list Byte.byte -> Z -> Z * list Byte.byte
}.

Section Wrappers.
Context {backend : CipherBackend}.

(** [gnutls_cipher_encrypt]: the result and the text buffer after the call. *)
Definition gnutls_cipher_encrypt (handle : Z) (text : list Byte.byte)
    (textlen : Z) : Z * list Byte.byte :=
  if negb (handle =? GNUTLS_CIPHER_FAILED) then
    if USE_MCRYPT then
      let '(_, text') := mcrypt_generic handle text textlen in
      (0, text')
    else
      let '(r, text') := gcry_cipher_encrypt handle text textlen in
      if negb (r =? 0) then (GNUTLS_E_UNKNOWN_ERROR, text')
      else (0, text')
  else (0, text).

(** [gnutls_cipher_decrypt]: the result and the buffer after the call. *)
Definition gnutls_cipher_decrypt (handle : Z) (ciphertext : list Byte.byte)
    (ciphertextlen : Z) : Z * list Byte.byte :=
  if negb (handle =? GNUTLS_CIPHER_FAILED) then
    if USE_MCRYPT then
      let '(_, ciphertext') :=
        mdecrypt_generic handle ciphertext ciphertextlen in
      (0, ciphertext')
    else
      let '(r, ciphertext') :=
        gcry_cipher_decrypt handle ciphertext ciphertextlen in
      if negb (r =? 0) then (GNUTLS_E_UNKNOWN_ERROR, ciphertext')
      else (0, ciphertext')
  else (0, ciphertext).

End Wrappers.

End Cipher.

(** *** gnutls_cipher_init and gnutls_cipher_deinit

    The calls that open, key and close a handle change the state of the
    crypto library: they are functions of that state ([world]) and return
    the state they leave.  In the libgcrypt text the key setup tests
    [iv!=NULL && ivsize>0], where [iv] is a structure and [ivsize] is not
    declared: that text is not C, and [gnutls_cipher_init] has no result
    ([None]) where control would reach it. *)

Module CipherSetup.
Import Cipher.

(** The enumerators that the [switch] names; any other value of the
    enumeration's type takes the [default] branch. *)
Inductive BulkCipherAlgorithm :=
| GNUTLS_NULL_CIPHER
| GNUTLS_RIJNDAEL_CBC
| GNUTLS_RIJNDAEL256_CBC
| GNUTLS_TWOFISH_CBC
| GNUTLS_3DES_CBC
| GNUTLS_ARCFOUR
| other_algorithm (v : Z).

(** [gnutls_datum]: the bytes [data] points at, and [size]. *)
Record gnutls_datum := { data : list Byte.byte; size : Z }.

Class CipherLibrary := {
  world : Type;
  (* (algorithm, mode), the two directories being NULL |-> handle *)
  mcrypt_module_open : string -> string -> world -> Z * world;
  (* (handle, key, keysize, iv) |-> result *)
  mcrypt_generic_init :
    Z -> list Byte.byte -> Z -> list Byte.byte -> world -> Z * world;
  mcrypt_generic_end : Z -> world -> Z * world;
  GCRY_CIPHER_RIJNDAEL : Z;
  GCRY_CIPHER_RIJNDAEL256 : Z;
  GCRY_CIPHER_TWOFISH : Z;
  GCRY_CIPHER_3DES : Z;
  GCRY_CIPHER_ARCFOUR : Z;
  GCRY_CIPHER_MODE_CBC : Z;
  GCRY_CIPHER_MODE_STREAM : Z;
  (* (algorithm, mode, flags) |-> handle *)
  gcry_cipher_open : Z -> Z -> Z -> world -> Z * world;
  gcry_cipher_close : Z -> world -> world
}.

Section Setup.
Context {backend : CipherBackend} {library : CipherLibrary}.

(** [gnutls_cipher_init]: the handle returned and the state of the library
    after the call. *)
Definition gnutls_cipher_init (cipher : BulkCipherAlgorithm)
    (key iv : gnutls_datum) (w : world) : option (Z * world) :=
  let '(ret, w1) :=
    match cipher with
    | GNUTLS_NULL_CIPHER => (GNUTLS_CIPHER_FAILED, w)
    | GNUTLS_RIJNDAEL_CBC =>
        if USE_MCRYPT then mcrypt_module_open "rijndael-128" "cbc" w
        else gcry_cipher_open GCRY_CIPHER_RIJNDAEL GCRY_CIPHER_MODE_CBC 0 w
    | GNUTLS_RIJNDAEL256_CBC =>
        if USE_MCRYPT then mcrypt_module_open "rijndael-128" "cbc" w
        else gcry_cipher_open GCRY_CIPHER_RIJNDAEL256 GCRY_CIPHER_MODE_CBC 0 w
    | GNUTLS_TWOFISH_CBC =>
        if USE_MCRYPT then mcrypt_module_open "twofish" "cbc" w
        else gcry_cipher_open GCRY_CIPHER_TWOFISH GCRY_CIPHER_MODE_CBC 0 w
    | GNUTLS_3DES_CBC =>
        if USE_MCRYPT then mcrypt_module_open "tripledes" "cbc" w
        else gcry_cipher_open GCRY_CIPHER_3DES GCRY_CIPHER_MODE_CBC 0 w
    | GNUTLS_ARCFOUR =>
        if USE_MCRYPT then mcrypt_module_open "arcfour" "stream" w
        else gcry_cipher_open GCRY_CIPHER_ARCFOUR GCRY_CIPHER_MODE_STREAM 0 w
    | other_algorithm _ => (GNUTLS_CIPHER_FAILED, w)
    end in
  if negb (ret =? GNUTLS_CIPHER_FAILED) then
    if USE_MCRYPT then
      (* ivsize is assumed to be blocksize *)
      let '(r, w2) :=
        mcrypt_generic_init ret (data key) (size key) (data iv) w1 in
      if r <? 0 then Some (GNUTLS_CIPHER_FAILED, w2) else Some (ret, w2)
    else
      (* gcry_cipher_setkey, then the test of line 81, which is not C *)
      None
  else Some (ret, w1).

(** [gnutls_cipher_deinit]: the state of the library after the call. *)
Definition gnutls_cipher_deinit (handle : Z) (w : world) : world :=
  if negb (handle =? GNUTLS_CIPHER_FAILED) then
    if USE_MCRYPT then snd (mcrypt_generic_end handle w)
    else gcry_cipher_close handle w
  else w.

(** The module that the libmcrypt text of the [switch] opens for an
    algorithm: its name and its mode. *)
Definition mcrypt_module (cipher : BulkCipherAlgorithm)
    : option (string * string) :=
  match cipher with
  | GNUTLS_NULL_CIPHER => None
  | GNUTLS_RIJNDAEL_CBC => Some ("rijndael-128"%string, "cbc"%string)
  | GNUTLS_RIJNDAEL256_CBC => Some ("rijndael-128"%string, "cbc"%string)
  | GNUTLS_TWOFISH_CBC => Some ("twofish"%string, "cbc"%string)
  | GNUTLS_3DES_CBC => Some ("tripledes"%string, "cbc"%string)
  | GNUTLS_ARCFOUR => Some ("arcfour"%string, "stream"%string)
  | other_algorithm _ => None
  end.

End Setup.

End CipherSetup.

(** ** An invariant of the traversal *)

Module Invariants.
Import Hostname.

Section FoundDnsname.
Context {parser : X509Parser}.
Variable san : Z -> Z * string.

(** [found_dnsname] is 1 when a request of the trace reported a dNSName
    and 0 when none did. *)
Definition found_records_dns (st : locals) : Prop :=
  (found_dnsname st = 1 /\
   exists k, In (SanRequested k) (trace st) /\
             fst (san k) = GNUTLS_SAN_DNSNAME) \/
  (found_dnsname st = 0 /\
   forall k, In (SanRequested k) (trace st) ->
             fst (san k) <> GNUTLS_SAN_DNSNAME).

End FoundDnsname.

End Invariants.

(** ** Small collaborators for the examples *)

Module Fixtures.
Import Hostname Cipher CipherSetup.

(** A parsing layer whose subjectAltName request never fails: every
    sequence number holds the same rfc822Name. *)
Definition endless_parser : X509Parser := {|
  GNUTLS_SAN_DNSNAME := 1;
  OID_X520_COMMON_NAME := "2.5.4.3";
  Hostname.gnutls_datum := unit;
  gnutls_x509_certificate := unit;
  gnutls_x509_extract_certificate_subject_alt_name :=
    fun _ _ _ => (GNUTLS_SAN_RFC822NAME, "admin@example.com"%string);
  gnutls_x509_extract_certificate_dn :=
    fun _ => (0, {| common_name := "www.example.com" |});
  gnutls_x509_certificate_get_subject_alt_name :=
    fun _ _ _ => (GNUTLS_SAN_RFC822NAME, "admin@example.com"%string);
  gnutls_x509_certificate_get_dn_by_oid :=
    fun _ _ _ _ => (0, "www.example.com"%string)
|}.

(** A certificate that agrees with [cert_error_then_dns] up to the
    decoding error and has no entry after it. *)
Definition cert_error_only : listed_cert :=
  {| alt_names := [(GNUTLS_E_ASN1_DER_ERROR, EmptyString)];
     subject := (0, "other.example.com"%string) |}.

(** A backend in the libmcrypt configuration whose calls reverse the
    buffer and report a failure. *)
Definition failing_mcrypt : CipherBackend := {|
  GNUTLS_CIPHER_FAILED := 0;
  GNUTLS_E_UNKNOWN_ERROR := -21;
  USE_MCRYPT := true;
  mcrypt_generic := fun _ text _ => (-1, rev text);
  mdecrypt_generic := fun _ text _ => (-1, rev text);
  gcry_cipher_encrypt := fun _ text _ => (-1, rev text);
  gcry_cipher_decrypt := fun _ text _ => (-1, rev text)
|}.

(** The same backend in the libgcrypt configuration. *)
Definition failing_gcrypt : CipherBackend := {|
  GNUTLS_CIPHER_FAILED := 0;
  GNUTLS_E_UNKNOWN_ERROR := -21;
  USE_MCRYPT := false;
  mcrypt_generic := fun _ text _ => (-1, rev text);
  mdecrypt_generic := fun _ text _ => (-1, rev text);
  gcry_cipher_encrypt := fun _ text _ => (-1, rev text);
  gcry_cipher_decrypt := fun _ text _ => (-1, rev text)
|}.

(** A library that logs the modules it opens, hands out the handles
    1, 2, ... and refuses an empty key. *)
Definition logging_library : CipherLibrary := {|
  world := list string;
  mcrypt_module_open :=
    fun algorithm _ w => (Z.of_nat (S (length w)), w ++ [algorithm]);
  mcrypt_generic_init :=
    fun _ _ keysize _ w => (if keysize <=? 0 then -1 else 0, w);
  mcrypt_generic_end := fun _ w => (0, w ++ ["end"%string]);
  GCRY_CIPHER_RIJNDAEL := 7;
  GCRY_CIPHER_RIJNDAEL256 := 9;
  GCRY_CIPHER_TWOFISH := 10;
  GCRY_CIPHER_3DES := 2;
  GCRY_CIPHER_ARCFOUR := 301;
  GCRY_CIPHER_MODE_CBC := 3;
  GCRY_CIPHER_MODE_STREAM := 4;
  gcry_cipher_open :=
    fun _ _ _ w => (Z.of_nat (S (length w)), w ++ ["gcry"%string]);
  gcry_cipher_close := fun _ w => w ++ ["close"%string]
|}.

(** A library that logs the modules it opens, hands out the handles
    1, 2, ... and whose key setup fails on a "tripledes" module and on no
    other. *)
Definition tripledes_fails_library : CipherLibrary := {|
  world := list string;
  mcrypt_module_open :=
    fun algorithm _ w => (Z.of_nat (S (length w)), w ++ [algorithm]);
  mcrypt_generic_init :=
    fun handle _ _ _ w =>
      (if String.eqb (nth (Z.to_nat handle - 1) w EmptyString) "tripledes"
       then -1 else 0, w);
  mcrypt_generic_end := fun _ w => (0, w ++ ["end"%string]);
  GCRY_CIPHER_RIJNDAEL := 7;
  GCRY_CIPHER_RIJNDAEL256 := 9;
  GCRY_CIPHER_TWOFISH := 10;
  GCRY_CIPHER_3DES := 2;
  GCRY_CIPHER_ARCFOUR := 301;
  GCRY_CIPHER_MODE_CBC := 3;
  GCRY_CIPHER_MODE_STREAM := 4;
  gcry_cipher_open :=
    fun _ _ _ w => (Z.of_nat (S (length w)), w ++ ["gcry"%string]);
  gcry_cipher_close := fun _ w => w ++ ["close"%string]
|}.

Definition empty_key : gnutls_datum := {| data := []; size := 0 |}.

Definition short_key : gnutls_datum :=
  {| data := [Byte.x01; Byte.x02]; size := 2 |}.

End Fixtures.

Import CString Hostname Cipher.
Import Invariants.

(** * Properties *)

(** ** The string functions *)

Section CStringFacts.

Lemma char_diff_nonzero (c1 c2 : ascii) : char_diff c1 c2 <> 0.
Proof. unfold char_diff. destruct (uchar c1 <? uchar c2); discriminate. Qed.

Lemma strcmp_refl (s : string) : strcmp s s = 0.
Proof.
  induction s as [|c s IH]; simpl; [reflexivity|].
  now rewrite Ascii.eqb_refl.
Qed.

Lemma strcmp_zero_iff (s1 s2 : string) : strcmp s1 s2 = 0 <-> s1 = s2.
Proof.
  split; [|intros ->; apply strcmp_refl].
  revert s2. induction s1 as [|c1 t1 IH]; intros [|c2 t2]; simpl;
    try discriminate; try reflexivity.
  destruct (Ascii.eqb_spec c1 c2) as [->|Hne].
  - intros H. now rewrite (IH _ H).
  - intros H. now apply char_diff_nonzero in H.
Qed.

(** Testing [strcmp] against 0 is string equality. *)
Lemma strcmp_eqb (s1 s2 : string) :
  (strcmp s1 s2 =? 0) = String.eqb s1 s2.
Proof.
  destruct (String.eqb_spec s1 s2) as [->|Hne].
  - now rewrite strcmp_refl.
  - apply Z.eqb_neq. intros H. now apply strcmp_zero_iff in H.
Qed.

(** [strncmp] over the length of [p] tests whether [p] is a prefix. *)
Lemma strncmp_prefix (p s : string) :
  (strncmp s p (String.length p) =? 0) = String.prefix p s.
Proof.
  revert s. induction p as [|c p IH]; intros [|a t];
    cbn [strncmp String.length String.prefix]; try reflexivity.
  destruct (ascii_dec c a) as [->|Hne].
  - rewrite Ascii.eqb_refl. apply IH.
  - destruct (Ascii.eqb_spec a c) as [->|_]; [congruence|].
    apply Z.eqb_neq, char_diff_nonzero.
Qed.

Lemma substring_all (s : string) : String.substring 0 (String.length s) s = s.
Proof. induction s as [|c s IH]; simpl; [reflexivity|now rewrite IH]. Qed.

(** The suffix after [k] characters is the pointer advanced by [k]. *)
Lemma substring_ptr_add (s : string) (k : nat) :
  String.substring k (String.length s - k) s = ptr_add s k.
Proof.
  revert s. induction k as [|k IH]; intros s.
  - rewrite Nat.sub_0_r. destruct s; simpl; [reflexivity|].
    now rewrite substring_all.
  - destruct s as [|c s]; simpl; [reflexivity|apply IH].
Qed.

(** [strchr] for a character and [index] for the one-character string. *)
Lemma strchr_index (s : string) (c : ascii) :
  match String.index 0 (String c EmptyString) s with
  | None => strchr s c = None
  | Some k => strchr s c = Some (ptr_add s k)
  end.
Proof.
  induction s as [|a t IH]; [reflexivity|].
  cbn [String.index strchr].
  destruct (String.prefix (String c EmptyString) (String a t)) eqn:Hp.
  - cbn in Hp. destruct (ascii_dec c a) as [->|]; [|discriminate].
    now rewrite Ascii.eqb_refl.
  - cbn in Hp. destruct (ascii_dec c a) as [->|Hne].
    + now destruct t.
    + destruct (Ascii.eqb_spec a c) as [->|_]; [congruence|].
      destruct (String.index 0 (String c EmptyString) t); exact IH.
Qed.

Lemma strlen_zero (s : string) : (strlen s =? 0) = String.eqb s EmptyString.
Proof. now destruct s. Qed.

Lemma strlen_gt (s : string) (n : nat) :
  (strlen s >? Z.of_nat n) = Nat.ltb n (String.length s).
Proof.
  unfold strlen. rewrite Z.gtb_ltb.
  destruct (Nat.ltb_spec n (String.length s));
    [apply Z.ltb_lt | apply Z.ltb_ge]; lia.
Qed.

End CStringFacts.

(** ** hostname_compare *)

Section Compare.

(** C3.  [hostname_compare] computes the comparison of the specification:
    it returns 1 where [WildcardCompare] is true and 0 where it is false. *)
Theorem hostname_compare_refines_WildcardCompare :
  forall certname hostname : string,
    hostname_compare certname hostname =
    if WildcardCompare certname hostname then 1 else 0.
Proof.
  intros certname hostname.
  unfold hostname_compare, WildcardCompare.
  rewrite !strlen_zero.
  destruct (String.eqb certname EmptyString
            || String.eqb hostname EmptyString); [reflexivity|].
  change (strlen certname >? 2) with (strlen certname >? Z.of_nat 2).
  rewrite strlen_gt.
  change (strncmp certname "*." 2)
    with (strncmp certname "*." (String.length "*.")).
  rewrite strncmp_prefix.
  destruct (Nat.ltb 2 (String.length certname) && String.prefix "*." certname).
  - pose proof (strchr_index hostname ".") as Hdot.
    destruct (String.index 0 "." hostname) as [k|]; rewrite Hdot.
    + now rewrite strcmp_eqb, !substring_ptr_add.
    + reflexivity.
  - now rewrite strcmp_eqb.
Qed.

(** C7.  A non-empty name matches itself, also when it has the wildcard
    form: its suffix after the '*' is its suffix from its first '.'. *)
Theorem hostname_compare_refl :
  forall h : string, h <> EmptyString -> hostname_compare h h = 1.
Proof.
  intros h Hne. unfold hostname_compare.
  rewrite strlen_zero, orb_diag.
  destruct (String.eqb_spec h EmptyString) as [->|_]; [congruence|].
  destruct ((strlen h >? 2) && (strncmp h "*." 2 =? 0)) eqn:Hw.
  - apply andb_true_iff in Hw. destruct Hw as [_ Hp].
    change (strncmp h "*." 2) with (strncmp h "*." (String.length "*.")) in Hp.
    rewrite strncmp_prefix in Hp.
    destruct h as [|a [|b t]]; cbn [String.prefix] in Hp.
    + discriminate.
    + destruct (ascii_dec "*" a); discriminate.
    + destruct (ascii_dec "*" a) as [<-|]; [|discriminate].
      destruct (ascii_dec "." b) as [<-|]; [|discriminate].
      cbn. now rewrite strcmp_refl.
  - now rewrite strcmp_refl.
Qed.

Lemma hostname_compare_refl_witness :
  "*.example.com"%string <> EmptyString /\
  hostname_compare "*.example.com" "*.example.com" = 1.
Proof.
  split; [discriminate|].
  apply (hostname_compare_refl "*.example.com"). discriminate.
Defined.

End Compare.

(** ** Machine integers *)

Section IntFacts.

Lemma int_wrap_add_l (a b : Z) : int_wrap (int_wrap a + b) = int_wrap (a + b).
Proof.
  unfold int_wrap. f_equal.
  replace ((a + 2147483648) mod 4294967296 - 2147483648 + b + 2147483648)
    with ((a + 2147483648) mod 4294967296 + b) by ring.
  rewrite Zplus_mod_idemp_l.
  f_equal. ring.
Qed.

Lemma int_wrap_small (z : Z) : 0 <= z <= INT_MAX -> int_wrap z = z.
Proof.
  unfold int_wrap, INT_MAX. intros H.
  rewrite Z.mod_small by lia. ring.
Qed.

Lemma int_wrap_idem (z : Z) : int_wrap (int_wrap z) = int_wrap z.
Proof.
  pose proof (int_wrap_add_l z 0) as H. now rewrite !Z.add_0_r in H.
Qed.

Lemma int_incr_call_index (k : nat) : int_incr (call_index k) = call_index (S k).
Proof.
  unfold int_incr, call_index. rewrite int_wrap_add_l. f_equal. lia.
Qed.

(** Up to [INT_MAX] the [k]-th request carries the sequence number [k]. *)
Lemma call_index_small (k : nat) :
  Z.of_nat k <= INT_MAX -> call_index k = Z.of_nat k.
Proof. intros H. apply int_wrap_small. lia. Qed.

Lemma call_indices_succ (n : nat) :
  call_indices (S n) = call_indices n ++ [call_index n].
Proof. unfold call_indices. now rewrite seq_S, map_app. Qed.

Lemma in_call_indices (n : nat) (k : Z) :
  In k (call_indices n) <-> exists j, (j < n)%nat /\ k = call_index j.
Proof.
  unfold call_indices. rewrite in_map_iff. split.
  - intros (j & <- & Hj). apply in_seq in Hj. exists j. split; [lia|easy].
  - intros (j & Hj & ->). exists j. split; [easy|]. apply in_seq. lia.
Qed.

End IntFacts.

(** ** The traversal *)

Section Traversal.
Context {parser : X509Parser}.

Lemma san_requests_app (tr1 tr2 : list event) :
  san_requests (tr1 ++ tr2) = (san_requests tr1 + san_requests tr2)%nat.
Proof.
  induction tr1 as [|[k|] tr1 IH]; simpl; [reflexivity| |]; now rewrite IH.
Qed.

(** *** The two loops are the traversal over their accessor's outcomes *)

Lemma check_certificates_hostname_loop_scan fuel cert hostname st :
  check_certificates_hostname_loop fuel cert hostname st =
  scan (encoded_san cert) hostname fuel st.
Proof.
  revert st. induction fuel as [|fuel IH]; intros st;
    cbn [check_certificates_hostname_loop scan]; [reflexivity|].
  destruct (ret st <? 0); [reflexivity|].
  unfold matches, body, next, is_dns, encoded_san.
  destruct (gnutls_x509_extract_certificate_subject_alt_name
              cert (i st) MAX_CN) as [r dnsname].
  cbn [fst snd].
  destruct (r =? GNUTLS_SAN_DNSNAME); cbn [andb]; [|apply IH].
  destruct (negb (hostname_compare dnsname hostname =? 0));
    [reflexivity|apply IH].
Qed.

Lemma certificate_check_hostname_loop_scan fuel cert hostname st :
  certificate_check_hostname_loop fuel cert hostname st =
  scan (handle_san cert) hostname fuel st.
Proof.
  revert st. induction fuel as [|fuel IH]; intros st;
    cbn [certificate_check_hostname_loop scan]; [reflexivity|].
  destruct (ret st <? 0); [reflexivity|].
  unfold matches, body, next, is_dns, handle_san.
  destruct (gnutls_x509_certificate_get_subject_alt_name
              cert (i st) sizeof_dnsname) as [r dnsname].
  cbn [fst snd].
  destruct (r =? GNUTLS_SAN_DNSNAME); cbn [andb]; [|apply IH].
  destruct (negb (hostname_compare dnsname hostname =? 0));
    [reflexivity|apply IH].
Qed.

Lemma check_certificates_hostname_matcher fuel cert hostname :
  gnutls_x509_check_certificates_hostname fuel cert hostname =
  matcher (encoded_san cert) (encoded_cn cert) hostname fuel.
Proof.
  unfold gnutls_x509_check_certificates_hostname, matcher.
  rewrite check_certificates_hostname_loop_scan.
  destruct (scan (encoded_san cert) hostname fuel initial) as [[v st|st]|];
    try reflexivity.
  destruct (found_dnsname st =? 0); [|reflexivity].
  unfold cn_verdict, ask_dn, encoded_cn.
  destruct (gnutls_x509_extract_certificate_dn cert) as [r dn]. cbn [fst snd].
  destruct (negb (r =? 0)); [reflexivity|].
  now destruct (negb (hostname_compare (common_name dn) hostname =? 0)).
Qed.

Lemma certificate_check_hostname_matcher fuel cert hostname :
  gnutls_x509_certificate_check_hostname fuel cert hostname =
  matcher (handle_san cert) (handle_cn cert) hostname fuel.
Proof.
  unfold gnutls_x509_certificate_check_hostname, matcher.
  rewrite certificate_check_hostname_loop_scan.
  destruct (scan (handle_san cert) hostname fuel initial) as [[v st|st]|];
    try reflexivity.
  destruct (found_dnsname st =? 0); [|reflexivity].
  unfold cn_verdict, ask_dn, handle_cn.
  destruct (gnutls_x509_certificate_get_dn_by_oid
              cert OID_X520_COMMON_NAME 0 sizeof_dnsname) as [r dnsname].
  cbn [fst snd].
  destruct (negb (r =? 0)); [reflexivity|].
  now destruct (negb (hostname_compare dnsname hostname =? 0)).
Qed.

Lemma entry_point_scan san cn loop verify :
  entry_point san cn loop verify ->
  forall fuel hostname st, loop fuel hostname st = scan san hostname fuel st.
Proof.
  intros [cert|cert] fuel hostname st.
  - apply check_certificates_hostname_loop_scan.
  - apply certificate_check_hostname_loop_scan.
Qed.

Lemma entry_point_matcher san cn loop verify :
  entry_point san cn loop verify ->
  forall fuel hostname, verify fuel hostname = matcher san cn hostname fuel.
Proof.
  intros [cert|cert] fuel hostname.
  - apply check_certificates_hostname_matcher.
  - apply certificate_check_hostname_matcher.
Qed.

(** *** The traversal over outcomes *)

Section Scan.
Variable san : Z -> Z * string.
Variable cn : Z * string.
Variable hostname : string.

Lemma next_after (n : nat) : next san (after san n) = after san (S n).
Proof.
  unfold next, after. cbn [i ret found_dnsname trace].
  rewrite int_incr_call_index, call_indices_succ, existsb_app, map_app.
  cbn [existsb map]. rewrite orb_false_r. f_equal.
  destruct (is_dns san (call_index n)); [now rewrite orb_true_r|].
  now rewrite orb_false_r.
Qed.

Lemma ret_after_nonneg (n : nat) :
  (forall j, (j < n)%nat -> 0 <= fst (san (call_index j))) ->
  0 <= ret (after san n).
Proof.
  intros H. destruct n as [|m]; cbn [after ret]; [lia|]. apply H. lia.
Qed.

(** While the results are non-negative and no dNSName matches, each unit
    of fuel runs the body once more. *)
Lemma scan_after (n fuel : nat) :
  (forall j, (j < n)%nat ->
     0 <= fst (san (call_index j)) /\
     matches san hostname (call_index j) = false) ->
  scan san hostname (n + fuel) initial = scan san hostname fuel (after san n).
Proof.
  revert fuel. induction n as [|n IH]; intros fuel H; [reflexivity|].
  replace (S n + fuel)%nat with (n + S fuel)%nat by lia.
  rewrite IH by (intros j Hj; apply H; lia).
  cbn [scan].
  assert (0 <= ret (after san n)) as Hret
      by (apply ret_after_nonneg; intros j Hj; apply H; lia).
  apply Z.ltb_ge in Hret. rewrite Hret.
  cbn [after i]. destruct (H n (Nat.lt_succ_diag_r n)) as [_ ->].
  now rewrite <- next_after.
Qed.

Lemma scan_match (n fuel : nat) :
  (forall j, (j < n)%nat ->
     0 <= fst (san (call_index j)) /\
     matches san hostname (call_index j) = false) ->
  matches san hostname (call_index n) = true ->
  (n < fuel)%nat ->
  scan san hostname fuel initial =
  Some (Return 1 {| i := call_index n;
                    ret := GNUTLS_SAN_DNSNAME;
                    found_dnsname := 1;
                    trace := map SanRequested (call_indices (S n)) |}).
Proof.
  intros H Hm Hf.
  replace fuel with (n + S (fuel - n - 1))%nat by lia.
  rewrite scan_after by exact H.
  cbn [scan].
  assert (0 <= ret (after san n)) as Hret
      by (apply ret_after_nonneg; intros j Hj; apply H; lia).
  apply Z.ltb_ge in Hret. rewrite Hret.
  cbn [after i]. rewrite Hm.
  unfold body. cbn [after i ret found_dnsname trace].
  unfold matches in Hm. apply andb_true_iff in Hm. destruct Hm as [Hd _].
  rewrite Hd. unfold is_dns in Hd. apply Z.eqb_eq in Hd. rewrite Hd.
  now rewrite call_indices_succ, map_app.
Qed.

Lemma scan_end (n fuel : nat) :
  (forall j, (j < n)%nat ->
     0 <= fst (san (call_index j)) /\
     matches san hostname (call_index j) = false) ->
  matches san hostname (call_index n) = false ->
  fst (san (call_index n)) < 0 ->
  (n < fuel)%nat ->
  scan san hostname fuel initial = Some (LoopExit (after san (S n))).
Proof.
  intros H Hm Hneg Hf.
  replace fuel with (n + S (fuel - n - 1))%nat by lia.
  rewrite scan_after by exact H.
  cbn [scan].
  assert (0 <= ret (after san n)) as Hret
      by (apply ret_after_nonneg; intros j Hj; apply H; lia).
  apply Z.ltb_ge in Hret. rewrite Hret.
  cbn [after i]. rewrite Hm.
  change (call_index n) with (i (after san n)). rewrite next_after.
  apply Z.ltb_lt in Hneg.
  destruct (fuel - n - 1)%nat; cbn [scan after ret]; now rewrite Hneg.
Qed.

End Scan.

Section Verdict.
Variable san : Z -> Z * string.
Variable cn : Z * string.
Variable hostname : string.

Lemma not_dns_no_match (k : Z) :
  fst (san k) <> GNUTLS_SAN_DNSNAME -> matches san hostname k = false.
Proof.
  intros H. unfold matches, is_dns.
  apply Z.eqb_neq in H. now rewrite H.
Qed.

(** Some request among the first [n] reported a dNSName. *)
Lemma dns_seen_iff (n : nat) :
  existsb (is_dns san) (call_indices n) = true <->
  exists j, (j < n)%nat /\ fst (san (call_index j)) = GNUTLS_SAN_DNSNAME.
Proof.
  rewrite existsb_exists. unfold is_dns. split.
  - intros (k & Hk & Hd). apply in_call_indices in Hk.
    destruct Hk as (j & Hj & ->). exists j. split; [easy|].
    now apply Z.eqb_eq.
  - intros (j & Hj & Hd). exists (call_index j). split.
    + apply in_call_indices. now exists j.
    + now apply Z.eqb_eq.
Qed.

(** The verdict when the traversal ends at the [n]-th request without a
    match. *)
Lemma matcher_end (n fuel : nat) :
  (forall j, (j < n)%nat ->
     0 <= fst (san (call_index j)) /\
     matches san hostname (call_index j) = false) ->
  matches san hostname (call_index n) = false ->
  fst (san (call_index n)) < 0 ->
  (n < fuel)%nat ->
  matcher san cn hostname fuel =
  if existsb (is_dns san) (call_indices (S n))
  then Some (0, after san (S n))
  else Some (cn_verdict cn hostname, ask_dn (after san (S n))).
Proof.
  intros H Hm Hneg Hf. unfold matcher.
  rewrite (scan_end san hostname n fuel H Hm Hneg Hf).
  cbn [after found_dnsname].
  now destruct (existsb (is_dns san) (call_indices (S n))).
Qed.

Lemma dn_not_in_after (n : nat) : ~ In DnRequested (trace (after san n)).
Proof.
  cbn [after trace]. intros Hin. apply in_map_iff in Hin.
  now destruct Hin as (k & Hk & _).
Qed.

Lemma dn_in_ask_dn (st : locals) : In DnRequested (trace (ask_dn st)).
Proof. cbn [ask_dn trace]. apply in_or_app. right. now left. Qed.

(** A [return] from inside the loop returns 1, and the entry just examined
    is a dNSName that matches. *)
Lemma scan_return (fuel : nat) (st : locals) (v : Z) (st' : locals) :
  scan san hostname fuel st = Some (Return v st') ->
  v = 1 /\
  exists k, In (SanRequested k) (trace st') /\ matches san hostname k = true.
Proof.
  revert st. induction fuel as [|fuel IH]; intros st; cbn [scan];
    destruct (ret st <? 0); try discriminate.
  destruct (matches san hostname (i st)) eqn:Hm; [|apply IH].
  intros [= <- <-]. split; [reflexivity|].
  exists (i st). split; [|exact Hm].
  cbn [body trace]. apply in_or_app. right. now left.
Qed.

Lemma cn_verdict_cases :
  cn_verdict cn hostname = 0 \/
  cn_verdict cn hostname = 1 /\
  fst cn = 0 /\ hostname_compare (snd cn) hostname <> 0.
Proof.
  unfold cn_verdict.
  destruct (Z.eqb_spec (fst cn) 0) as [H0|_]; cbn [negb]; [|now left].
  destruct (Z.eqb_spec (hostname_compare (snd cn) hostname) 0) as [|Hc];
    cbn [negb]; [now left|now right].
Qed.

End Verdict.

(** C4.  First match wins: when the entries before the [n]-th request are
    passed over (non-negative results, no matching dNSName) and the [n]-th
    is a dNSName that matches the hostname, either entry point returns 1
    with [found_dnsname] set, having made the requests 0..n and no other:
    no later entry is examined and the common name is not asked. *)
Theorem first_match_wins :
  forall san cn loop verify,
    entry_point san cn loop verify ->
    forall (hostname : string) (n : nat),
      (forall j, (j < n)%nat ->
         0 <= fst (san (call_index j)) /\
         matches san hostname (call_index j) = false) ->
      matches san hostname (call_index n) = true ->
      forall fuel, (n < fuel)%nat ->
        verify fuel hostname =
        Some (1, {| i := call_index n;
                    ret := GNUTLS_SAN_DNSNAME;
                    found_dnsname := 1;
                    trace := map SanRequested (call_indices (S n)) |}).
Proof.
  intros san cn loop verify E hostname n H Hm fuel Hf.
  rewrite (entry_point_matcher _ _ _ _ E). unfold matcher.
  now rewrite (scan_match san hostname n fuel H Hm Hf).
Qed.

(** X18.  When the traversal ends at the [n]-th request without a match,
    either entry point returns a verdict, and: if some request reported a
    dNSName, the verdict is 0 and the common name was not asked; the common
    name is asked exactly when no request reported a dNSName. *)
Theorem dns_san_disables_cn_fallback :
  forall san cn loop verify,
    entry_point san cn loop verify ->
    forall (hostname : string) (n : nat),
      (forall j, (j < n)%nat -> 0 <= fst (san (call_index j))) ->
      fst (san (call_index n)) < 0 ->
      (forall j, (j <= n)%nat -> matches san hostname (call_index j) = false) ->
      forall fuel, (n < fuel)%nat ->
      exists v st,
        verify fuel hostname = Some (v, st) /\
        ((exists j, (j <= n)%nat /\
                    fst (san (call_index j)) = GNUTLS_SAN_DNSNAME) ->
         v = 0 /\ ~ In DnRequested (trace st)) /\
        (In DnRequested (trace st) <->
         forall j, (j <= n)%nat ->
                   fst (san (call_index j)) <> GNUTLS_SAN_DNSNAME).
Proof.
  intros san cn loop verify E hostname n Hpos Hneg Hno fuel Hf.
  rewrite (entry_point_matcher _ _ _ _ E).
  rewrite (matcher_end san cn hostname n fuel)
    by (try split; auto using Nat.lt_le_incl).
  destruct (existsb (is_dns san) (call_indices (S n))) eqn:Hex.
  - apply dns_seen_iff in Hex. destruct Hex as (j & Hj & Hd).
    exists 0, (after san (S n)). split; [reflexivity|]. split.
    + intros _. split; [reflexivity|apply dn_not_in_after].
    + split.
      * intros Hin. now apply dn_not_in_after in Hin.
      * intros Hall. exfalso. apply (Hall j); [lia|exact Hd].
  - assert (forall j, (j <= n)%nat ->
              fst (san (call_index j)) <> GNUTLS_SAN_DNSNAME) as Hall.
    { intros j Hj Hd.
      assert (existsb (is_dns san) (call_indices (S n)) = true) as Hex'
          by (apply dns_seen_iff; exists j; split; [lia|exact Hd]).
      congruence. }
    exists (cn_verdict cn hostname), (ask_dn (after san (S n))).
    split; [reflexivity|]. split.
    + intros (j & Hj & Hd). now apply Hall in Hd.
    + split; [intros _; exact Hall|intros _; apply dn_in_ask_dn].
Qed.

(** C5.  Fail-closed: when the traversal ends at the [n]-th request having
    seen no dNSName and the request for the subject's name fails (non-zero
    result), either entry point returns 0; and whatever a call returns is
    0 or 1, with 1 only for a dNSName entry that matched or for a common
    name that was retrieved (result 0) and matched: no failure of an
    accessor comes back as anything but the verdict 0. *)
Theorem failures_resolve_to_false :
  forall san cn loop verify,
    entry_point san cn loop verify ->
    (forall (hostname : string) (n : nat),
       (forall j, (j < n)%nat -> 0 <= fst (san (call_index j))) ->
       fst (san (call_index n)) < 0 ->
       (forall j, (j <= n)%nat ->
                  fst (san (call_index j)) <> GNUTLS_SAN_DNSNAME) ->
       fst cn <> 0 ->
       forall fuel, (n < fuel)%nat ->
       exists st,
         verify fuel hostname = Some (0, st) /\ In DnRequested (trace st)) /\
    (forall (hostname : string) fuel v st,
       verify fuel hostname = Some (v, st) ->
       (v = 0 \/ v = 1) /\
       (v = 1 ->
        (exists k, In (SanRequested k) (trace st) /\
                   matches san hostname k = true) \/
        (In DnRequested (trace st) /\
         fst cn = 0 /\ hostname_compare (snd cn) hostname <> 0))).
Proof.
  intros san cn loop verify E. split.
  - intros hostname n Hpos Hneg Hno Hcn fuel Hf.
    rewrite (entry_point_matcher _ _ _ _ E).
    rewrite (matcher_end san cn hostname n fuel)
      by (try split; auto using Nat.lt_le_incl, not_dns_no_match).
    destruct (existsb (is_dns san) (call_indices (S n))) eqn:Hex.
    + apply dns_seen_iff in Hex. destruct Hex as (j & Hj & Hd).
      exfalso. apply (Hno j); [lia|exact Hd].
    + exists (ask_dn (after san (S n))). split; [|apply dn_in_ask_dn].
      unfold cn_verdict. apply Z.eqb_neq in Hcn. now rewrite Hcn.
  - intros hostname fuel v st.
    rewrite (entry_point_matcher _ _ _ _ E). unfold matcher.
    destruct (scan san hostname fuel initial) as [[v' st'|st']|] eqn:Hs;
      [| |discriminate].
    + intros [= <- <-]. apply scan_return in Hs. destruct Hs as [-> Hk].
      split; [now right|]. intros _. now left.
    + destruct (found_dnsname st' =? 0).
      * intros [= <- <-].
        destruct (cn_verdict_cases cn hostname) as [->|(-> & H0 & Hc)].
        -- split; [now left|discriminate].
        -- split; [now right|]. intros _. right.
           split; [apply dn_in_ask_dn|easy].
      * intros [= <- <-]. split; [now left|discriminate].
Qed.

(** *** Termination *)

Section Bound.
Variable san : Z -> Z * string.
Variable hostname : string.

(** From any loop state, a negative result [d] entries ahead ends the loop
    within [d + 1] further requests. *)
Lemma scan_bounded (d : nat) :
  forall (fuel : nat) (st : locals),
    int_wrap (i st) = i st ->
    fst (san (int_wrap (i st + Z.of_nat d))) < 0 ->
    (d < fuel)%nat ->
    exists fl,
      scan san hostname fuel st = Some fl /\
      (san_requests (trace (flow_locals fl)) <=
       san_requests (trace st) + S d)%nat.
Proof.
  induction d as [|d IH]; intros fuel st Hi Hneg Hf;
    (destruct fuel as [|fuel]; [lia|]); cbn [scan];
    (destruct (ret st <? 0);
     [exists (LoopExit st); split; [reflexivity|cbn [flow_locals]; lia]|]);
    (destruct (matches san hostname (i st));
     [exists (Return 1 (body san st)); split; [reflexivity|];
      cbn [flow_locals body trace]; rewrite san_requests_app; cbn; lia|]).
  - rewrite Z.add_0_r, Hi in Hneg. apply Z.ltb_lt in Hneg.
    exists (LoopExit (next san st)). split.
    + destruct fuel; cbn [scan next ret]; now rewrite Hneg.
    + cbn [flow_locals next trace]. rewrite san_requests_app. cbn. lia.
  - destruct (IH fuel (next san st)) as (fl & Hfl & Hb).
    + cbn [next i]. apply int_wrap_idem.
    + cbn [next i]. unfold int_incr. rewrite int_wrap_add_l.
      replace (i st + 1 + Z.of_nat d) with (i st + Z.of_nat (S d)) by lia.
      exact Hneg.
    + lia.
    + exists fl. split; [exact Hfl|].
      cbn [next trace] in Hb. rewrite san_requests_app in Hb.
      cbn in Hb. lia.
Qed.

End Bound.

(** C8.  When the [n]-th request reports a negative result, either entry
    point returns once it has fuel for [n + 1] executions of the body, and
    it has made at most [n + 1] subjectAltName requests. *)
Theorem traversal_bounded :
  forall san cn loop verify,
    entry_point san cn loop verify ->
    forall (hostname : string) (n : nat),
      fst (san (call_index n)) < 0 ->
      forall fuel, (n < fuel)%nat ->
      exists v st,
        verify fuel hostname = Some (v, st) /\
        (san_requests (trace st) <= S n)%nat.
Proof.
  intros san cn loop verify E hostname n Hneg fuel Hf.
  rewrite (entry_point_matcher _ _ _ _ E). unfold matcher.
  destruct (scan_bounded san hostname n fuel initial) as (fl & -> & Hb);
    [reflexivity|exact Hneg|exact Hf|].
  cbn [initial trace san_requests] in Hb.
  destruct fl as [v st|st]; cbn [flow_locals] in Hb.
  - exists v, st. now split.
  - destruct (found_dnsname st =? 0).
    + exists (cn_verdict cn hostname), (ask_dn st). split; [reflexivity|].
      cbn [ask_dn trace]. rewrite san_requests_app. cbn. lia.
    + exists 0, st. now split.
Qed.

(** *** Entries that are skipped *)

Section Skip.
Variable san : Z -> Z * string.
Variable hostname : string.

(** The trace only grows along the traversal. *)
Lemma scan_trace_extends (fuel : nat) :
  forall st fl,
    scan san hostname fuel st = Some fl ->
    exists tl, trace (flow_locals fl) = trace st ++ tl.
Proof.
  induction fuel as [|fuel IH]; intros st fl; cbn [scan];
    (destruct (ret st <? 0);
     [intros [= <-]; exists []; now rewrite app_nil_r|]);
    [discriminate|].
  destruct (matches san hostname (i st)).
  - intros [= <-]. now exists [SanRequested (i st)].
  - intros Hs. apply IH in Hs. destruct Hs as (tl & ->).
    exists (SanRequested (i st) :: tl). cbn [next trace].
    now rewrite <- app_assoc.
Qed.

(** When the loop is entered on an entry that reports a non-negative
    result and does not match, the next entry is requested before the
    traversal leaves the loop. *)
Lemma scan_requests_next (fuel : nat) (st : locals) (fl : flow) :
  0 <= ret st ->
  0 <= fst (san (i st)) ->
  matches san hostname (i st) = false ->
  scan san hostname fuel st = Some fl ->
  In (SanRequested (int_incr (i st))) (trace (flow_locals fl)).
Proof.
  intros Hret Hpos Hm.
  apply Z.ltb_ge in Hret. apply Z.ltb_ge in Hpos.
  destruct fuel as [|[|fuel]]; cbn [scan]; rewrite Hret;
    [discriminate|rewrite Hm; cbn [scan next ret]; now rewrite Hpos|].
  rewrite Hm. cbn [scan].
  change (ret (next san st)) with (fst (san (i st))). rewrite Hpos.
  destruct (matches san hostname (i (next san st))).
  - intros [= <-]. cbn [flow_locals body trace next i].
    apply in_or_app. right. now left.
  - intros Hs. apply scan_trace_extends in Hs. destruct Hs as (tl & ->).
    apply in_or_app. left. cbn [next trace i].
    apply in_or_app. right. now left.
Qed.

End Skip.

(** X17.  In either entry point, when the loop is entered on an
    entry whose request reports a non-negative result other than
    [GNUTLS_SAN_DNSNAME], the body leaves [found_dnsname] as it was and the
    loop goes on to the next sequence number, which is requested before
    the loop is left; so after any number of such entries a dNSName entry
    that matches still gives the verdict 1. *)
Theorem other_type_entry_skipped :
  forall san cn loop verify,
    entry_point san cn loop verify ->
    (forall (hostname : string) (st : locals),
       0 <= ret st ->
       0 <= fst (san (i st)) ->
       fst (san (i st)) <> GNUTLS_SAN_DNSNAME ->
       (forall fuel,
          loop (S fuel) hostname st =
          loop fuel hostname
            {| i := int_incr (i st);
               ret := fst (san (i st));
               found_dnsname := found_dnsname st;
               trace := trace st ++ [SanRequested (i st)] |}) /\
       (forall fuel fl,
          loop fuel hostname st = Some fl ->
          In (SanRequested (int_incr (i st))) (trace (flow_locals fl)))) /\
    (forall (hostname : string) (n : nat),
       (forall j, (j < n)%nat ->
          0 <= fst (san (call_index j)) /\
          fst (san (call_index j)) <> GNUTLS_SAN_DNSNAME) ->
       matches san hostname (call_index n) = true ->
       forall fuel, (n < fuel)%nat ->
       exists st, verify fuel hostname = Some (1, st) /\
                  found_dnsname st = 1).
Proof.
  intros san cn loop verify E. split.
  - intros hostname st Hret Hpos Hne. split.
    + intros fuel. rewrite !(entry_point_scan _ _ _ _ E). cbn [scan].
      apply Z.ltb_ge in Hret. rewrite Hret.
      rewrite (not_dns_no_match san hostname _ Hne).
      unfold next, is_dns. apply Z.eqb_neq in Hne. now rewrite Hne.
    + intros fuel fl. rewrite (entry_point_scan _ _ _ _ E).
      apply scan_requests_next; auto using not_dns_no_match.
  - intros hostname n H Hm fuel Hf.
    rewrite (entry_point_matcher _ _ _ _ E). unfold matcher.
    rewrite (scan_match san hostname n fuel); [| |exact Hm|exact Hf].
    + eexists. split; reflexivity.
    + intros j Hj. destruct (H j Hj) as [Hpos Hne].
      split; [exact Hpos|now apply not_dns_no_match].
Qed.

(** *** The verdict depends on the outcomes only *)

Section Extensional.
Variables san san' : Z -> Z * string.
Variables cn cn' : Z * string.
Variable hostname : string.
Hypothesis same_san : forall k, san k = san' k.
Hypothesis same_cn : cn = cn'.

Lemma scan_ext (fuel : nat) (st : locals) :
  scan san hostname fuel st = scan san' hostname fuel st.
Proof.
  revert st. induction fuel as [|fuel IH]; intros st; cbn [scan];
    [reflexivity|].
  unfold matches, body, next, is_dns. rewrite !same_san.
  destruct (ret st <? 0); [reflexivity|].
  now destruct (_ && _).
Qed.

Lemma matcher_ext (fuel : nat) :
  matcher san cn hostname fuel = matcher san' cn' hostname fuel.
Proof. unfold matcher. now rewrite scan_ext, same_cn. Qed.

End Extensional.

Section Fuel.
Variable san : Z -> Z * string.
Variable cn : Z * string.
Variable hostname : string.

(** More fuel does not change a result. *)
Lemma scan_fuel_mono (fuel : nat) :
  forall st fl fuel',
    scan san hostname fuel st = Some fl ->
    (fuel <= fuel')%nat ->
    scan san hostname fuel' st = Some fl.
Proof.
  induction fuel as [|fuel IH]; intros st fl fuel';
    (destruct fuel' as [|fuel']; cbn [scan]; destruct (ret st <? 0));
    try easy; try lia.
  destruct (matches san hostname (i st)); [easy|].
  intros Hs Hle. apply (IH _ _ _ Hs). lia.
Qed.

Lemma matcher_fuel_mono (fuel fuel' : nat) (r : Z * locals) :
  matcher san cn hostname fuel = Some r ->
  (fuel <= fuel')%nat ->
  matcher san cn hostname fuel' = Some r.
Proof.
  unfold matcher.
  destruct (scan san hostname fuel initial) as [fl|] eqn:Hs; [|discriminate].
  intros Hr Hle. now rewrite (scan_fuel_mono _ _ _ _ Hs Hle).
Qed.

Lemma matcher_functional (fuel fuel' : nat) (r r' : Z * locals) :
  matcher san cn hostname fuel = Some r ->
  matcher san cn hostname fuel' = Some r' ->
  r = r'.
Proof.
  intros Hr Hr'. destruct (Nat.le_ge_cases fuel fuel') as [Hle|Hle].
  - rewrite (matcher_fuel_mono _ _ _ Hr Hle) in Hr'. congruence.
  - rewrite (matcher_fuel_mono _ _ _ Hr' Hle) in Hr. congruence.
Qed.

End Fuel.

(** C6.  When the accessors of the two entry points report the same
    outcome at every sequence number and the same outcome for the common
    name, the two entry points give the same result for every hostname (and
    every amount of fuel). *)
Theorem entry_points_agree :
  forall (dcert : gnutls_datum) (xcert : gnutls_x509_certificate),
    (forall k, encoded_san dcert k = handle_san xcert k) ->
    encoded_cn dcert = handle_cn xcert ->
    forall fuel (hostname : string),
      gnutls_x509_check_certificates_hostname fuel dcert hostname =
      gnutls_x509_certificate_check_hostname fuel xcert hostname.
Proof.
  intros dcert xcert Hsan Hcn fuel hostname.
  rewrite check_certificates_hostname_matcher.
  rewrite certificate_check_hostname_matcher.
  now apply matcher_ext.
Qed.

(** The result of a call does not depend on its fuel, and certificates
    with the same outcomes get the same result. *)
Theorem verify_deterministic :
  (forall (c c' : gnutls_datum) (hostname : string) fuel fuel' r r',
     (forall k, encoded_san c k = encoded_san c' k) ->
     encoded_cn c = encoded_cn c' ->
     gnutls_x509_check_certificates_hostname fuel c hostname = Some r ->
     gnutls_x509_check_certificates_hostname fuel' c' hostname = Some r' ->
     r = r') /\
  (forall (c c' : gnutls_x509_certificate) (hostname : string)
          fuel fuel' r r',
     (forall k, handle_san c k = handle_san c' k) ->
     handle_cn c = handle_cn c' ->
     gnutls_x509_certificate_check_hostname fuel c hostname = Some r ->
     gnutls_x509_certificate_check_hostname fuel' c' hostname = Some r' ->
     r = r').
Proof.
  split; intros c c' hostname fuel fuel' r r' Hsan Hcn.
  - rewrite !check_certificates_hostname_matcher.
    rewrite (matcher_ext _ _ _ _ hostname Hsan Hcn fuel).
    apply matcher_functional.
  - rewrite !certificate_check_hostname_matcher.
    rewrite (matcher_ext _ _ _ _ hostname Hsan Hcn fuel).
    apply matcher_functional.
Qed.

End Traversal.

Lemma first_match_wins_witness :
  @gnutls_x509_check_certificates_hostname listed_parser
    5 cert_two_dns "www.example.com" =
  Some (1, {| i := 1; ret := 1; found_dnsname := 1;
              trace := [SanRequested 0; SanRequested 1] |}).
Proof.
  apply (@first_match_wins listed_parser _ _ _ _ (@from_encoded listed_parser cert_two_dns)
           "www.example.com"%string 1%nat).
  - intros [|j] Hj; [|lia]. split; [now vm_compute|reflexivity].
  - reflexivity.
  - lia.
Defined.

Lemma dns_san_disables_cn_fallback_witness :
  exists v st,
    @gnutls_x509_check_certificates_hostname listed_parser
      5 cert_one_dns "www.example.com" = Some (v, st) /\
    ((exists j, (j <= 1)%nat /\
                fst (@encoded_san listed_parser cert_one_dns (call_index j))
                = 1) ->
     v = 0 /\ ~ In DnRequested (trace st)) /\
    (In DnRequested (trace st) <->
     forall j, (j <= 1)%nat ->
               fst (@encoded_san listed_parser cert_one_dns (call_index j))
               <> 1).
Proof.
  apply (@dns_san_disables_cn_fallback listed_parser _ _ _ _
           (@from_encoded listed_parser cert_one_dns)
           "www.example.com"%string 1%nat).
  - intros [|j] Hj; [now vm_compute|lia].
  - now vm_compute.
  - intros [|[|j]] Hj; [reflexivity|reflexivity|lia].
  - lia.
Defined.

Lemma failures_resolve_to_false_witness :
  (exists st,
     @gnutls_x509_certificate_check_hostname listed_parser
       3 cert_no_dn "www.example.com" = Some (0, st) /\
     In DnRequested (trace st)) /\
  match @gnutls_x509_certificate_check_hostname listed_parser
          3 cert_two_dns "www.example.com" with
  | Some (v, _) => v = 0 \/ v = 1
  | None => False
  end.
Proof.
  split.
  - apply (proj1 (@failures_resolve_to_false listed_parser _ _ _ _
                    (@from_handle listed_parser cert_no_dn))
             "www.example.com"%string 0%nat).
    + intros j Hj. lia.
    + now vm_compute.
    + intros [|j] Hj; [now vm_compute|lia].
    + now vm_compute.
    + lia.
  - destruct (@gnutls_x509_certificate_check_hostname listed_parser
                3 cert_two_dns "www.example.com") as [[v st]|] eqn:Hrun;
      [|discriminate Hrun].
    exact (proj1 (proj2 (@failures_resolve_to_false listed_parser _ _ _ _
                           (@from_handle listed_parser cert_two_dns))
                    "www.example.com"%string 3%nat v st Hrun)).
Defined.

Lemma traversal_bounded_witness :
  exists v st,
    @gnutls_x509_check_certificates_hostname listed_parser
      3 cert_two_dns "ftp.example.com" = Some (v, st) /\
    (san_requests (trace st) <= 3)%nat.
Proof.
  apply (@traversal_bounded listed_parser _ _ _ _
           (@from_encoded listed_parser cert_two_dns)
           "ftp.example.com"%string 2%nat).
  - now vm_compute.
  - lia.
Defined.

Lemma other_type_entry_skipped_witness :
  @check_certificates_hostname_loop listed_parser
    2 cert_other_then_dns "www.example.com" initial =
  @check_certificates_hostname_loop listed_parser
    1 cert_other_then_dns "www.example.com"
    {| i := 1; ret := GNUTLS_SAN_RFC822NAME; found_dnsname := 0;
       trace := [SanRequested 0] |} /\
  (exists st,
     @gnutls_x509_check_certificates_hostname listed_parser
       2 cert_other_then_dns "www.example.com" = Some (1, st) /\
     found_dnsname st = 1).
Proof.
  destruct (@other_type_entry_skipped listed_parser _ _ _ _
              (@from_encoded listed_parser cert_other_then_dns))
    as [Hstep Hlater].
  split.
  - refine (proj1 (Hstep "www.example.com"%string initial _ _ _) 1%nat);
      now vm_compute.
  - apply (Hlater "www.example.com"%string 1%nat).
    + intros [|j] Hj; [|lia]. split; now vm_compute.
    + reflexivity.
    + lia.
Defined.

(** C1.  The code does not skip an entry whose request reports a decoding
    error.  Entry 0 reports the negative result of a decoding error, which
    is not [GNUTLS_SAN_DNSNAME], and entry 1 is a dNSName that matches the
    hostname.  The loop, entered on entry 0, is left without a request for
    entry 1; both entry points then ask for the common name, which does
    not match, and return 0. *)
Lemma decode_error_ends_traversal :
  fst (@encoded_san listed_parser cert_error_then_dns 0)
    = GNUTLS_E_ASN1_DER_ERROR /\
  fst (@encoded_san listed_parser cert_error_then_dns 0)
    <> @GNUTLS_SAN_DNSNAME listed_parser /\
  @check_certificates_hostname_loop listed_parser
    5 cert_error_then_dns "www.example.com" initial =
  Some (LoopExit {| i := 1; ret := GNUTLS_E_ASN1_DER_ERROR;
                    found_dnsname := 0; trace := [SanRequested 0] |}) /\
  ~ In (SanRequested (int_incr 0)) [SanRequested 0] /\
  @matches listed_parser (@encoded_san listed_parser cert_error_then_dns)
    "www.example.com" 1 = true /\
  @gnutls_x509_check_certificates_hostname listed_parser
    5 cert_error_then_dns "www.example.com" =
  Some (0, {| i := 1; ret := GNUTLS_E_ASN1_DER_ERROR; found_dnsname := 0;
              trace := [SanRequested 0; DnRequested] |}) /\
  @gnutls_x509_certificate_check_hostname listed_parser
    5 cert_error_then_dns "www.example.com" =
  Some (0, {| i := 1; ret := GNUTLS_E_ASN1_DER_ERROR; found_dnsname := 0;
              trace := [SanRequested 0; DnRequested] |}).
Proof.
  repeat split; try reflexivity; try (now vm_compute).
  intros [H|[]]. discriminate H.
Qed.

(** C2.  The code compares the common name although the certificate has
    a dNSName entry.  Entry 0 reports a decoding error and entry 1 is a
    dNSName, "www.example.com"; the common name is "other.example.com".
    For the hostname "other.example.com" both entry points leave the loop
    after entry 0 with [found_dnsname] at 0, ask for the common name and
    return 1. *)
Lemma cn_consulted_despite_dns_entry :
  fst (@encoded_san listed_parser cert_error_then_dns 1)
    = @GNUTLS_SAN_DNSNAME listed_parser /\
  snd (@encoded_san listed_parser cert_error_then_dns 1)
    = "www.example.com"%string /\
  @gnutls_x509_check_certificates_hostname listed_parser
    5 cert_error_then_dns "other.example.com" =
  Some (1, {| i := 1; ret := GNUTLS_E_ASN1_DER_ERROR; found_dnsname := 0;
              trace := [SanRequested 0; DnRequested] |}) /\
  @gnutls_x509_certificate_check_hostname listed_parser
    5 cert_error_then_dns "other.example.com" =
  Some (1, {| i := 1; ret := GNUTLS_E_ASN1_DER_ERROR; found_dnsname := 0;
              trace := [SanRequested 0; DnRequested] |}).
Proof. repeat split. Qed.

Lemma entry_points_agree_witness :
  @gnutls_x509_check_certificates_hostname listed_parser
    5 cert_other_types "www.example.com" =
  @gnutls_x509_certificate_check_hostname listed_parser
    5 cert_other_types "www.example.com".
Proof.
  apply (@entry_points_agree listed_parser cert_other_types cert_other_types).
  - intros k. reflexivity.
  - reflexivity.
Defined.

Lemma verify_deterministic_witness :
  match @gnutls_x509_check_certificates_hostname listed_parser
          3 cert_cn_only "foo.example.org",
        @gnutls_x509_check_certificates_hostname listed_parser
          7 cert_cn_only "foo.example.org" with
  | Some r, Some r' => r = r'
  | _, _ => False
  end.
Proof.
  destruct (@gnutls_x509_check_certificates_hostname listed_parser
              3 cert_cn_only "foo.example.org") as [r|] eqn:Hr;
    [|discriminate Hr].
  destruct (@gnutls_x509_check_certificates_hostname listed_parser
              7 cert_cn_only "foo.example.org") as [r'|] eqn:Hr';
    [|discriminate Hr'].
  apply (proj1 (@verify_deterministic listed_parser)
           cert_cn_only cert_cn_only "foo.example.org"%string 3%nat 7%nat
           r r'); try assumption.
  - intros k. reflexivity.
  - reflexivity.
Defined.

(** ** The examples of the specification *)

Section SpecExamples.

Example compare_empty_certname (h : string) :
  hostname_compare EmptyString h = 0.
Proof. reflexivity. Qed.

Example compare_empty_hostname (c : string) :
  hostname_compare c EmptyString = 0.
Proof.
  unfold hostname_compare. cbn [strlen String.length Z.of_nat Z.eqb].
  now rewrite orb_true_r.
Qed.

Example compare_wildcard_one_label :
  hostname_compare "*.example.com" "www.example.com" = 1.
Proof. reflexivity. Qed.

Example compare_wildcard_bare_domain :
  hostname_compare "*.example.com" "example.com" = 0.
Proof. reflexivity. Qed.

Example compare_wildcard_two_labels :
  hostname_compare "*.example.com" "a.b.example.com" = 0.
Proof. reflexivity. Qed.

Example compare_wildcard_no_dot : hostname_compare "*.x" "justx" = 0.
Proof. reflexivity. Qed.

Example verify_second_san :
  option_map fst
    (@gnutls_x509_check_certificates_hostname listed_parser
       5 cert_two_dns "www.example.com") = Some 1.
Proof. reflexivity. Qed.

Example verify_san_disables_cn :
  @gnutls_x509_check_certificates_hostname listed_parser
    5 cert_one_dns "www.example.com" =
  Some (0, {| i := 2; ret := GNUTLS_E_REQUESTED_DATA_NOT_AVAILABLE;
              found_dnsname := 1;
              trace := [SanRequested 0; SanRequested 1] |}).
Proof. reflexivity. Qed.

Example verify_cn_wildcard :
  @gnutls_x509_certificate_check_hostname listed_parser
    5 cert_cn_only "foo.example.org" =
  Some (1, {| i := 1; ret := GNUTLS_E_REQUESTED_DATA_NOT_AVAILABLE;
              found_dnsname := 0;
              trace := [SanRequested 0; DnRequested] |}).
Proof. reflexivity. Qed.

Example verify_other_types_fall_back :
  @gnutls_x509_certificate_check_hostname listed_parser
    5 cert_other_types "www.example.com" =
  Some (1, {| i := 3; ret := GNUTLS_E_REQUESTED_DATA_NOT_AVAILABLE;
              found_dnsname := 0;
              trace := [SanRequested 0; SanRequested 1; SanRequested 2;
                        DnRequested] |}).
Proof. reflexivity. Qed.

(** Without fuel for the whole traversal there is no result. *)
Example verify_out_of_fuel :
  @gnutls_x509_check_certificates_hostname listed_parser
    1 cert_two_dns "www.example.com" = None.
Proof. reflexivity. Qed.

End SpecExamples.

(** ** The cipher wrappers *)

Section CipherFacts.
Context {backend : CipherBackend}.

(** With a live handle and libgcrypt, a failing backend call is reported. *)
Lemma gcry_error_reported (handle : Z) (text : list Byte.byte) (textlen : Z) :
  handle <> GNUTLS_CIPHER_FAILED ->
  USE_MCRYPT = false ->
  fst (gcry_cipher_encrypt handle text textlen) <> 0 ->
  fst (gnutls_cipher_encrypt handle text textlen) = GNUTLS_E_UNKNOWN_ERROR.
Proof.
  intros Hh Hm Hr. unfold gnutls_cipher_encrypt.
  apply Z.eqb_neq in Hh. rewrite Hh, Hm. cbn [negb].
  destruct (gcry_cipher_encrypt handle text textlen) as [r text'].
  cbn [fst] in Hr. apply Z.eqb_neq in Hr. now rewrite Hr.
Qed.

(** C10.  On the handle [GNUTLS_CIPHER_FAILED], [gnutls_cipher_encrypt] and
    [gnutls_cipher_decrypt] return 0 and leave the buffer as it was, for
    every buffer and length and with either backend. *)
Theorem failed_handle_reports_success :
  forall (text : list Byte.byte) (textlen : Z),
    gnutls_cipher_encrypt GNUTLS_CIPHER_FAILED text textlen = (0, text) /\
    gnutls_cipher_decrypt GNUTLS_CIPHER_FAILED text textlen = (0, text).
Proof.
  intros text textlen.
  unfold gnutls_cipher_encrypt, gnutls_cipher_decrypt.
  now rewrite Z.eqb_refl.
Qed.

End CipherFacts.

(** * Further properties of the code *)

(** ** hostname_compare: what a name of the certificate matches *)

Section CompareShape.

Lemma string_length_append (a b : string) :
  String.length (a ++ b) = (String.length a + String.length b)%nat.
Proof. induction a as [|x a IH]; cbn; [reflexivity|now rewrite IH]. Qed.

(** A first occurrence of [c] splits the string into a part without [c]
    and the suffix found. *)
Lemma strchr_some_split (h : string) (c : ascii) (s : string) :
  strchr h c = Some s ->
  exists label t,
    strchr label c = None /\ h = (label ++ s)%string /\ s = String c t.
Proof.
  revert s. induction h as [|x h IH]; intros s; cbn [strchr];
    [discriminate|].
  destruct (Ascii.eqb_spec x c) as [->|Hne].
  - intros [= <-]. now exists EmptyString, h.
  - intros Hs. destruct (IH s Hs) as (label & t & Hl & -> & ->).
    exists (String x label), t. cbn [strchr append].
    apply Ascii.eqb_neq in Hne. now rewrite Hne.
Qed.

Lemma strchr_none_append (label : string) (c : ascii) (t : string) :
  strchr label c = None ->
  strchr (label ++ String c t) c = Some (String c t).
Proof.
  induction label as [|x label IH]; cbn [strchr append].
  - intros _. now rewrite Ascii.eqb_refl.
  - destruct (Ascii.eqb x c); [discriminate|exact IH].
Qed.

(** The suffix [strchr] finds in [a ++ c :: t] is at least [c :: t]. *)
Lemma strchr_append_length (a : string) (c : ascii) (t s : string) :
  strchr (a ++ String c t) c = Some s ->
  (S (String.length t) <= String.length s)%nat.
Proof.
  induction a as [|x a IH]; cbn [strchr append].
  - rewrite Ascii.eqb_refl. intros [= <-]. cbn. lia.
  - destruct (Ascii.eqb x c); [|exact IH].
    intros [= <-]. cbn [String.length].
    rewrite string_length_append. cbn. lia.
Qed.

(** The comparison for a name of the wildcard form. *)
Lemma hostname_compare_wildcard (rest h : string) :
  rest <> EmptyString ->
  hostname_compare (String "*" (String "." rest)) h =
  match strchr h "." with
  | None => 0
  | Some s => if String.eqb (String "." rest) s then 1 else 0
  end.
Proof.
  intros Hrest. unfold hostname_compare.
  rewrite !strlen_zero. cbn [String.eqb orb].
  change (strlen (String "*" (String "." rest)) >? 2)
    with (strlen (String "*" (String "." rest)) >? Z.of_nat 2).
  rewrite strlen_gt.
  change (strncmp (String "*" (String "." rest)) "*." 2)
    with (strncmp (String "*" (String "." rest)) "*."
            (String.length "*.")).
  rewrite strncmp_prefix.
  destruct rest as [|r rest]; [congruence|].
  destruct h as [|x h]; [reflexivity|].
  cbn [String.eqb String.length Nat.ltb Nat.leb andb String.prefix ptr_add].
  destruct (ascii_dec "*" "*") as [_|Hn]; [|congruence].
  destruct (ascii_dec "." ".") as [_|Hn]; [|congruence].
  destruct (strchr (String x h) "."); [|reflexivity].
  now rewrite strcmp_eqb.
Qed.

(** The comparison for a name that has not the wildcard form. *)
Lemma hostname_compare_literal (c h : string) :
  (String.length c <= 2)%nat \/ String.prefix "*." c = false ->
  hostname_compare c h =
  if String.eqb c EmptyString || String.eqb h EmptyString then 0
  else if String.eqb c h then 1 else 0.
Proof.
  intros Hform. unfold hostname_compare.
  rewrite !strlen_zero.
  destruct (String.eqb c EmptyString || String.eqb h EmptyString);
    [reflexivity|].
  change (strlen c >? 2) with (strlen c >? Z.of_nat 2).
  rewrite strlen_gt.
  change (strncmp c "*." 2) with (strncmp c "*." (String.length "*.")).
  rewrite strncmp_prefix, strcmp_eqb.
  destruct Hform as [Hlen| ->]; [|now rewrite andb_false_r].
  apply Nat.ltb_ge in Hlen. now rewrite Hlen.
Qed.

(** X1.  A name of the form "*." followed by a non-empty rest matches a
    hostname exactly when the hostname is one label without a dot
    (possibly empty) followed by "." and that rest. *)
Theorem wildcard_matches_iff :
  forall rest h : string,
    rest <> EmptyString ->
    (hostname_compare (String "*" (String "." rest)) h = 1 <->
     exists label,
       strchr label "." = None /\ h = (label ++ String "." rest)%string).
Proof.
  intros rest h Hrest. rewrite (hostname_compare_wildcard rest h Hrest).
  split.
  - destruct (strchr h ".") as [s|] eqn:Hs; [|discriminate].
    destruct (String.eqb_spec (String "." rest) s) as [<-|_];
      [|discriminate].
    intros _. apply strchr_some_split in Hs.
    destruct Hs as (label & t & Hl & -> & _). now exists label.
  - intros (label & Hl & ->).
    rewrite (strchr_none_append label "." rest Hl).
    now rewrite String.eqb_refl.
Qed.

Lemma wildcard_matches_iff_witness :
  hostname_compare "*.example.com" "www.example.com" = 1 <->
  exists label,
    strchr label "." = None /\
    "www.example.com"%string = (label ++ ".example.com")%string.
Proof.
  apply (wildcard_matches_iff "example.com" "www.example.com").
  discriminate.
Defined.

(** X2.  A name that has not the wildcard form (at most two characters, or
    not beginning with "*.") matches a hostname exactly when it is
    non-empty and equal to it, character for character: a '*' elsewhere,
    and the name "*." itself, are compared as they stand. *)
Theorem literal_matches_iff :
  forall c h : string,
    (String.length c <= 2)%nat \/ String.prefix "*." c = false ->
    (hostname_compare c h = 1 <-> c <> EmptyString /\ c = h).
Proof.
  intros c h Hform. rewrite (hostname_compare_literal c h Hform).
  destruct (String.eqb_spec c EmptyString) as [->|Hc]; cbn [orb].
  - split; [discriminate|]. now intros [Hne _].
  - destruct (String.eqb_spec h EmptyString) as [->|Hh].
    + split; [discriminate|]. intros [_ Heq]. congruence.
    + destruct (String.eqb_spec c h) as [->|Hne].
      * now split.
      * split; [discriminate|]. now intros [_ Heq].
Qed.

Lemma literal_matches_iff_witness :
  hostname_compare "www.*.com" "www.example.com" = 1 <->
  "www.*.com"%string <> EmptyString /\
  "www.*.com"%string = "www.example.com"%string.
Proof.
  apply (literal_matches_iff "www.*.com" "www.example.com").
  right. reflexivity.
Defined.

(** X3.  A wildcard never stands for more than one label: the name
    "*." ++ rest does not match a hostname that has two or more labels in
    front of "." ++ rest. *)
Theorem wildcard_one_label_only :
  forall rest a b : string,
    rest <> EmptyString ->
    hostname_compare (String "*" (String "." rest))
      (a ++ String "." (b ++ String "." rest)) = 0.
Proof.
  intros rest a b Hrest. rewrite (hostname_compare_wildcard _ _ Hrest).
  destruct (strchr (a ++ String "." (b ++ String "." rest)) ".")
    as [s|] eqn:Hs; [|reflexivity].
  apply strchr_append_length in Hs.
  destruct (String.eqb_spec (String "." rest) s) as [<-|_]; [|reflexivity].
  rewrite string_length_append in Hs. cbn [String.length] in Hs. lia.
Qed.

Lemma wildcard_one_label_only_witness :
  hostname_compare "*.example.com" "a.b.example.com" = 0.
Proof.
  apply (wildcard_one_label_only "example.com" "a" "b"). discriminate.
Defined.

(** X4.  The label a wildcard stands for may be empty: the name
    "*." ++ rest matches the hostname "." ++ rest. *)
Theorem wildcard_matches_empty_label :
  forall rest : string,
    rest <> EmptyString ->
    hostname_compare (String "*" (String "." rest)) (String "." rest) = 1.
Proof.
  intros rest Hrest. rewrite (hostname_compare_wildcard _ _ Hrest).
  cbn [strchr]. rewrite Ascii.eqb_refl. now rewrite String.eqb_refl.
Qed.

Lemma wildcard_matches_empty_label_witness :
  hostname_compare "*.example.com" ".example.com" = 1.
Proof.
  apply (wildcard_matches_empty_label "example.com"). discriminate.
Defined.

End CompareShape.

(** ** The two entry points: more on the traversal *)

Section TraversalShape.
Context {parser : X509Parser}.

Section Outcome.
Variable san : Z -> Z * string.
Variable cn : Z * string.
Variable hostname : string.

(** While every result is non-negative and nothing matches, the loop is
    not left. *)
Lemma scan_never (fuel : nat) :
  (forall k, 0 <= fst (san k)) ->
  (forall k, matches san hostname k = false) ->
  forall st, 0 <= ret st -> scan san hostname fuel st = None.
Proof.
  intros Hpos Hno. induction fuel as [|fuel IH]; intros st Hret;
    cbn [scan]; apply Z.ltb_ge in Hret; rewrite Hret; [reflexivity|].
  rewrite Hno. apply IH. cbn [next ret]. apply Hpos.
Qed.

(** The requests of a traversal carry the sequence numbers of the calls
    0, 1, 2, ... in this order. *)
Lemma scan_shape (fuel : nat) :
  forall (m : nat) (st : locals) (fl : flow),
    i st = call_index m ->
    trace st = map SanRequested (call_indices m) ->
    scan san hostname fuel st = Some fl ->
    exists m',
      (m <= m')%nat /\
      (0 <= ret st -> (S m <= m')%nat) /\
      trace (flow_locals fl) = map SanRequested (call_indices m').
Proof.
  induction fuel as [|fuel IH]; intros m st fl Hi Htr; cbn [scan];
    (destruct (Z.ltb_spec (ret st) 0) as [Hneg|Hpos];
     [intros [= <-]; exists m; repeat split; [lia|lia|exact Htr]|]);
    [discriminate|].
  assert (trace st ++ [SanRequested (i st)] =
          map SanRequested (call_indices (S m))) as Htr'
      by (now rewrite call_indices_succ, map_app, Htr, Hi).
  destruct (matches san hostname (i st)).
  - intros [= <-]. exists (S m). repeat split; [lia|lia|exact Htr'].
  - intros Hs. destruct (IH (S m) (next san st) fl) as (m' & Hle & _ & Hfl);
      [cbn [next i]; now rewrite Hi, int_incr_call_index|exact Htr'|exact Hs|].
    exists m'. repeat split; [lia|lia|exact Hfl].
Qed.

Lemma found_records_dns_request (st : locals) (i' : Z) :
  found_records_dns san st ->
  found_records_dns san
    {| i := i'; ret := fst (san (i st));
       found_dnsname := if is_dns san (i st) then 1 else found_dnsname st;
       trace := trace st ++ [SanRequested (i st)] |}.
Proof.
  intros H. unfold found_records_dns. cbn [found_dnsname trace].
  unfold is_dns. destruct (Z.eqb_spec (fst (san (i st))) GNUTLS_SAN_DNSNAME)
    as [Hd|Hd].
  - left. split; [reflexivity|]. exists (i st). split; [|exact Hd].
    apply in_or_app. right. now left.
  - destruct H as [[Hf (k & Hk & Hkd)]|[Hf Hall]].
    + left. split; [exact Hf|]. exists k. split; [|exact Hkd].
      apply in_or_app. now left.
    + right. split; [exact Hf|]. intros k Hk.
      apply in_app_or in Hk. destruct Hk as [Hk|[[= <-]|[]]];
        [now apply Hall|exact Hd].
Qed.

Lemma scan_found_records_dns (fuel : nat) :
  forall st fl,
    found_records_dns san st ->
    scan san hostname fuel st = Some fl ->
    found_records_dns san (flow_locals fl).
Proof.
  induction fuel as [|fuel IH]; intros st fl Hinv; cbn [scan];
    (destruct (ret st <? 0); [now intros [= <-]|]); [discriminate|].
  destruct (matches san hostname (i st)).
  - intros [= <-]. now apply found_records_dns_request.
  - apply IH. now apply found_records_dns_request.
Qed.

(** Either some request up to the [n]-th matches, and then there is a
    first one, or none does. *)
Lemma first_match_or_none (n : nat) :
  (exists m, (m <= n)%nat /\
     matches san hostname (call_index m) = true /\
     forall j, (j < m)%nat -> matches san hostname (call_index j) = false) \/
  (forall j, (j <= n)%nat -> matches san hostname (call_index j) = false).
Proof.
  induction n as [|n [(m & Hm & Ht & Hb)|Hnone]].
  - destruct (matches san hostname (call_index 0)) eqn:H0.
    + left. exists 0%nat. repeat split; [lia|exact H0|intros j Hj; lia].
    + right. intros j Hj. now replace j with 0%nat by lia.
  - left. exists m. repeat split; [lia|exact Ht|exact Hb].
  - destruct (matches san hostname (call_index (S n))) eqn:HS.
    + left. exists (S n). repeat split; [lia|exact HS|].
      intros j Hj. apply Hnone. lia.
    + right. intros j Hj. destruct (Nat.eq_dec j (S n)) as [->|Hne];
        [exact HS|apply Hnone; lia].
Qed.

(** The result of a call whose traversal meets a negative result at the
    [n]-th request: that of the first match, if there is one up to [n],
    and otherwise that of the end of the list. *)
Lemma matcher_cases (n fuel : nat) :
  (forall j, (j < n)%nat -> 0 <= fst (san (call_index j))) ->
  fst (san (call_index n)) < 0 ->
  (n < fuel)%nat ->
  (exists m, (m <= n)%nat /\
     matches san hostname (call_index m) = true /\
     (forall j, (j < m)%nat ->
        matches san hostname (call_index j) = false) /\
     matcher san cn hostname fuel =
     Some (1, {| i := call_index m; ret := GNUTLS_SAN_DNSNAME;
                 found_dnsname := 1;
                 trace := map SanRequested (call_indices (S m)) |})) \/
  ((forall j, (j <= n)%nat -> matches san hostname (call_index j) = false) /\
   matcher san cn hostname fuel =
   if existsb (is_dns san) (call_indices (S n))
   then Some (0, after san (S n))
   else Some (cn_verdict cn hostname, ask_dn (after san (S n)))).
Proof.
  intros Hpos Hneg Hf.
  destruct (first_match_or_none n) as [(m & Hm & Ht & Hb)|Hnone].
  - left. exists m. repeat split; [exact Hm|exact Ht|exact Hb|].
    unfold matcher. rewrite (scan_match san hostname m fuel);
      [reflexivity| |exact Ht|lia].
    intros j Hj. split; [apply Hpos; lia|now apply Hb].
  - right. split; [exact Hnone|].
    apply matcher_end; [|now apply Hnone|exact Hneg|exact Hf].
    intros j Hj. split; [now apply Hpos|apply Hnone; lia].
Qed.

End Outcome.

Lemma existsb_agree (A : Type) (f g : A -> bool) (l : list A) :
  (forall x, In x l -> f x = g x) -> existsb f l = existsb g l.
Proof.
  induction l as [|x l IH]; intros H; cbn [existsb]; [reflexivity|].
  rewrite (H x) by now left.
  now rewrite IH by (intros y Hy; apply H; now right).
Qed.

(** Outcomes that agree on the first [n] calls give the same locals after
    [n] executions of the body. *)
Lemma after_agree (san san' : Z -> Z * string) (n : nat) :
  (forall j, (j < n)%nat -> san (call_index j) = san' (call_index j)) ->
  after san n = after san' n.
Proof.
  intros H. unfold after.
  assert (existsb (is_dns san) (call_indices n) =
          existsb (is_dns san') (call_indices n)) as ->.
  { apply existsb_agree. intros k Hk.
    apply in_call_indices in Hk. destruct Hk as (j & Hj & ->).
    unfold is_dns. now rewrite H. }
  destruct n as [|m]; [reflexivity|]. now rewrite H by lia.
Qed.

Lemma matches_agree (san san' : Z -> Z * string) (hostname : string) (k : Z) :
  san k = san' k -> matches san hostname k = matches san' hostname k.
Proof. intros H. unfold matches, is_dns. now rewrite H. Qed.

(** X5.  The loop is left only by a match or by a negative result: when
    every subjectAltName request reports a non-negative result and no
    dNSName matches the hostname, neither entry point returns, whatever
    the fuel. *)
Theorem traversal_needs_negative_result :
  forall san cn loop verify,
    entry_point san cn loop verify ->
    forall hostname : string,
      (forall k, 0 <= fst (san k)) ->
      (forall k, matches san hostname k = false) ->
      forall fuel, verify fuel hostname = None.
Proof.
  intros san cn loop verify E hostname Hpos Hno fuel.
  rewrite (entry_point_matcher _ _ _ _ E). unfold matcher.
  now rewrite (scan_never san hostname fuel Hpos Hno initial).
Qed.

(** X6.  A call that returns has made at least one subjectAltName
    request; its requests carry the sequence numbers of the calls 0, 1,
    ..., m-1 in this order, and the request for the subject's name, if
    any, is the last one and is made with [found_dnsname] at 0. *)
Theorem requests_in_order :
  forall san cn loop verify,
    entry_point san cn loop verify ->
    forall (hostname : string) fuel v st,
      verify fuel hostname = Some (v, st) ->
      exists m,
        (1 <= m)%nat /\
        (trace st = map SanRequested (call_indices m) \/
         trace st = map SanRequested (call_indices m) ++ [DnRequested] /\
         found_dnsname st = 0).
Proof.
  intros san cn loop verify E hostname fuel v st.
  rewrite (entry_point_matcher _ _ _ _ E). unfold matcher.
  destruct (scan san hostname fuel initial) as [fl|] eqn:Hs; [|discriminate].
  destruct (scan_shape san hostname fuel 0 initial fl) as (m & _ & Hm & Htr);
    [reflexivity|reflexivity|exact Hs|].
  specialize (Hm (Z.le_refl 0)).
  destruct fl as [v' st'|st']; cbn [flow_locals] in Htr.
  - intros [= <- <-]. exists m. split; [exact Hm|now left].
  - destruct (Z.eqb_spec (found_dnsname st') 0) as [H0|_].
    + intros [= <- <-]. exists m. split; [exact Hm|]. right.
      cbn [ask_dn trace found_dnsname]. now rewrite Htr.
    + intros [= <- <-]. exists m. split; [exact Hm|now left].
Qed.

(** X7.  When a call returns, [found_dnsname] is 1 if some
    subjectAltName request it made reported [GNUTLS_SAN_DNSNAME], and 0 if
    none did. *)
Theorem found_dnsname_records_dns :
  forall san cn loop verify,
    entry_point san cn loop verify ->
    forall (hostname : string) fuel v st,
      verify fuel hostname = Some (v, st) ->
      (found_dnsname st = 1 /\
       exists k, In (SanRequested k) (trace st) /\
                 fst (san k) = GNUTLS_SAN_DNSNAME) \/
      (found_dnsname st = 0 /\
       forall k, In (SanRequested k) (trace st) ->
                 fst (san k) <> GNUTLS_SAN_DNSNAME).
Proof.
  intros san cn loop verify E hostname fuel v st.
  rewrite (entry_point_matcher _ _ _ _ E). unfold matcher.
  destruct (scan san hostname fuel initial) as [fl|] eqn:Hs; [|discriminate].
  assert (found_records_dns san (flow_locals fl)) as Hinv.
  { apply (scan_found_records_dns san hostname fuel initial); [|exact Hs].
    right. split; [reflexivity|]. intros k []. }
  destruct fl as [v' st'|st']; cbn [flow_locals] in Hinv.
  - intros [= <- <-]. exact Hinv.
  - destruct (found_dnsname st' =? 0); intros [= <- <-]; [|exact Hinv].
    destruct Hinv as [[Hf (k & Hk & Hd)]|[Hf Hall]].
    + left. split; [exact Hf|]. exists k. split; [|exact Hd].
      cbn [ask_dn trace]. apply in_or_app. now left.
    + right. split; [exact Hf|]. intros k Hk.
      cbn [ask_dn trace] in Hk. apply in_app_or in Hk.
      destruct Hk as [Hk|[Hk|[]]]; [now apply Hall|discriminate Hk].
Qed.

(** X8.  What the accessors would report after the first negative result
    has no effect: two certificates whose outcomes agree up to a request
    with a negative result, and whose common-name outcomes agree, get the
    same result from the entry points. *)
Theorem entries_after_negative_ignored :
  forall san cn loop verify san' cn' loop' verify',
    entry_point san cn loop verify ->
    entry_point san' cn' loop' verify' ->
    forall (hostname : string) (n : nat),
      (forall j, (j <= n)%nat -> san (call_index j) = san' (call_index j)) ->
      cn = cn' ->
      (forall j, (j < n)%nat -> 0 <= fst (san (call_index j))) ->
      fst (san (call_index n)) < 0 ->
      forall fuel, (n < fuel)%nat ->
      exists r,
        verify fuel hostname = Some r /\ verify' fuel hostname = Some r.
Proof.
  intros san cn loop verify san' cn' loop' verify' E E'
         hostname n Hsan <- Hpos Hneg fuel Hf.
  rewrite (entry_point_matcher _ _ _ _ E), (entry_point_matcher _ _ _ _ E').
  assert (forall j, (j <= n)%nat ->
            matches san' hostname (call_index j) =
            matches san hostname (call_index j)) as Hm
      by (intros j Hj; symmetry; apply matches_agree; now apply Hsan).
  destruct (matcher_cases san cn hostname n fuel Hpos Hneg Hf)
    as [(m & Hle & Ht & Hb & ->)|[Hnone ->]].
  - eexists. split; [reflexivity|]. unfold matcher.
    rewrite (scan_match san' hostname m fuel); [reflexivity| | |lia].
    + intros j Hj. split.
      * rewrite <- Hsan by lia. apply Hpos. lia.
      * rewrite Hm by lia. now apply Hb.
    + now rewrite Hm.
  - rewrite (matcher_end san' cn hostname n fuel); [| | | |exact Hf].
    + rewrite (after_agree san san' (S n))
        by (intros j Hj; apply Hsan; lia).
      rewrite (existsb_agree _ (is_dns san) (is_dns san')).
      * destruct (existsb (is_dns san') (call_indices (S n)));
          eexists; split; reflexivity.
      * intros k Hk. apply in_call_indices in Hk.
        destruct Hk as (j & Hj & ->). unfold is_dns.
        now rewrite Hsan by lia.
    + intros j Hj. split.
      * rewrite <- Hsan by lia. now apply Hpos.
      * rewrite Hm by lia. apply Hnone. lia.
    + rewrite Hm by lia. now apply Hnone.
    + now rewrite <- Hsan.
Qed.

(** X9.  The verdict of a call whose traversal meets a negative result at
    the [n]-th request: it is 0 or 1, and it is 1 exactly when a dNSName
    among the requests up to [n] matches the hostname, or none of these
    requests reported a dNSName and the common name was retrieved (result
    0) and matches. *)
Theorem verdict_one_iff :
  forall san cn loop verify,
    entry_point san cn loop verify ->
    forall (hostname : string) (n : nat),
      (forall j, (j < n)%nat -> 0 <= fst (san (call_index j))) ->
      fst (san (call_index n)) < 0 ->
      forall fuel, (n < fuel)%nat ->
      exists v st,
        verify fuel hostname = Some (v, st) /\
        (v = 0 \/ v = 1) /\
        (v = 1 <->
         (exists j, (j <= n)%nat /\
                    matches san hostname (call_index j) = true) \/
         ((forall j, (j <= n)%nat ->
                     fst (san (call_index j)) <> GNUTLS_SAN_DNSNAME) /\
          fst cn = 0 /\ hostname_compare (snd cn) hostname <> 0)).
Proof.
  intros san cn loop verify E hostname n Hpos Hneg fuel Hf.
  rewrite (entry_point_matcher _ _ _ _ E).
  destruct (matcher_cases san cn hostname n fuel Hpos Hneg Hf)
    as [(m & Hle & Ht & Hb & ->)|[Hnone ->]].
  - eexists. eexists. split; [reflexivity|]. split; [now right|].
    split; [|reflexivity]. intros _. left. now exists m.
  - assert (~ exists j, (j <= n)%nat /\
                        matches san hostname (call_index j) = true) as Hno
        by (intros (j & Hj & Ht); rewrite Hnone in Ht by exact Hj;
            discriminate Ht).
    destruct (existsb (is_dns san) (call_indices (S n))) eqn:Hex.
    + apply dns_seen_iff in Hex. destruct Hex as (j & Hj & Hd).
      eexists. eexists. split; [reflexivity|]. split; [now left|].
      split; [discriminate|].
      intros [Hyes|(Hall & _)]; [now apply Hno in Hyes|].
      exfalso. apply (Hall j); [lia|exact Hd].
    + assert (forall j, (j <= n)%nat ->
                fst (san (call_index j)) <> GNUTLS_SAN_DNSNAME) as Hall.
      { intros j Hj Hd.
        assert (existsb (is_dns san) (call_indices (S n)) = true) as Hex'
            by (apply dns_seen_iff; exists j; split; [lia|exact Hd]).
        congruence. }
      eexists. eexists. split; [reflexivity|].
      unfold cn_verdict.
      destruct (Z.eqb_spec (fst cn) 0) as [H0|H0]; cbn [negb];
        [destruct (Z.eqb_spec (hostname_compare (snd cn) hostname) 0)
           as [Hc|Hc]; cbn [negb]|].
      * split; [now left|]. split; [discriminate|].
        intros [Hyes|(_ & _ & Hc')]; [now apply Hno in Hyes|easy].
      * split; [now right|]. split; [|reflexivity]. intros _. now right.
      * split; [now left|]. split; [discriminate|].
        intros [Hyes|(_ & H0' & _)]; [now apply Hno in Hyes|easy].
Qed.

(** X10.  The empty hostname is never accepted: a call with the empty
    hostname that returns, returns 0. *)
Theorem empty_hostname_rejected :
  forall san cn loop verify,
    entry_point san cn loop verify ->
    forall fuel v st,
      verify fuel EmptyString = Some (v, st) -> v = 0.
Proof.
  intros san cn loop verify E fuel v st.
  rewrite (entry_point_matcher _ _ _ _ E). unfold matcher.
  destruct (scan san EmptyString fuel initial) as [[v' st'|st']|] eqn:Hs;
    [| |discriminate].
  - apply scan_return in Hs. destruct Hs as (_ & k & _ & Hk).
    unfold matches in Hk. rewrite compare_empty_hostname in Hk.
    now rewrite andb_false_r in Hk.
  - destruct (found_dnsname st' =? 0); intros [= <- <-]; [|reflexivity].
    unfold cn_verdict. rewrite compare_empty_hostname.
    now destruct (negb (fst cn =? 0)).
Qed.

End TraversalShape.

Lemma traversal_needs_negative_result_witness :
  @gnutls_x509_check_certificates_hostname Fixtures.endless_parser
    1000 tt "www.example.com" = None.
Proof.
  apply (@traversal_needs_negative_result Fixtures.endless_parser _ _ _ _
           (@from_encoded Fixtures.endless_parser tt)
           "www.example.com"%string).
  - intros k. now vm_compute.
  - intros k. reflexivity.
Defined.

Lemma requests_in_order_witness :
  match @gnutls_x509_certificate_check_hostname listed_parser
          5 cert_other_types "www.example.com" with
  | Some (_, st) =>
      exists m,
        (1 <= m)%nat /\
        (trace st = map SanRequested (call_indices m) \/
         trace st = map SanRequested (call_indices m) ++ [DnRequested] /\
         found_dnsname st = 0)
  | None => False
  end.
Proof.
  destruct (@gnutls_x509_certificate_check_hostname listed_parser
              5 cert_other_types "www.example.com") as [[v st]|] eqn:Hrun;
    [|discriminate Hrun].
  exact (@requests_in_order listed_parser _ _ _ _
           (@from_handle listed_parser cert_other_types)
           "www.example.com"%string 5%nat v st Hrun).
Defined.

Lemma found_dnsname_records_dns_witness :
  match @gnutls_x509_check_certificates_hostname listed_parser
          5 cert_one_dns "www.example.com" with
  | Some (_, st) =>
      (found_dnsname st = 1 /\
       exists k, In (SanRequested k) (trace st) /\
                 fst (@encoded_san listed_parser cert_one_dns k) = 1) \/
      (found_dnsname st = 0 /\
       forall k, In (SanRequested k) (trace st) ->
                 fst (@encoded_san listed_parser cert_one_dns k) <> 1)
  | None => False
  end.
Proof.
  destruct (@gnutls_x509_check_certificates_hostname listed_parser
              5 cert_one_dns "www.example.com") as [[v st]|] eqn:Hrun;
    [|discriminate Hrun].
  exact (@found_dnsname_records_dns listed_parser _ _ _ _
           (@from_encoded listed_parser cert_one_dns)
           "www.example.com"%string 5%nat v st Hrun).
Defined.

Lemma entries_after_negative_ignored_witness :
  exists r,
    @gnutls_x509_check_certificates_hostname listed_parser
      5 cert_error_then_dns "www.example.com" = Some r /\
    @gnutls_x509_certificate_check_hostname listed_parser
      5 Fixtures.cert_error_only "www.example.com" = Some r.
Proof.
  apply (@entries_after_negative_ignored listed_parser _ _ _ _ _ _ _ _
           (@from_encoded listed_parser cert_error_then_dns)
           (@from_handle listed_parser Fixtures.cert_error_only)
           "www.example.com"%string 0%nat).
  - intros [|j] Hj; [reflexivity|lia].
  - reflexivity.
  - intros j Hj. lia.
  - now vm_compute.
  - lia.
Defined.

Lemma verdict_one_iff_witness :
  exists v st,
    @gnutls_x509_certificate_check_hostname listed_parser
      5 cert_other_types "www.example.com" = Some (v, st) /\
    (v = 0 \/ v = 1) /\
    (v = 1 <->
     (exists j, (j <= 2)%nat /\
        @matches listed_parser (@handle_san listed_parser cert_other_types)
          "www.example.com" (call_index j) = true) \/
     ((forall j, (j <= 2)%nat ->
         fst (@handle_san listed_parser cert_other_types (call_index j))
         <> 1) /\
      fst (@handle_cn listed_parser cert_other_types) = 0 /\
      hostname_compare (snd (@handle_cn listed_parser cert_other_types))
        "www.example.com" <> 0)).
Proof.
  apply (@verdict_one_iff listed_parser _ _ _ _
           (@from_handle listed_parser cert_other_types)
           "www.example.com"%string 2%nat).
  - intros [|[|j]] Hj; [now vm_compute|now vm_compute|lia].
  - now vm_compute.
  - lia.
Defined.

Lemma empty_hostname_rejected_witness :
  match @gnutls_x509_check_certificates_hostname listed_parser
          3 cert_cn_only EmptyString with
  | Some (v, _) => v = 0
  | None => False
  end.
Proof.
  destruct (@gnutls_x509_check_certificates_hostname listed_parser
              3 cert_cn_only EmptyString) as [[v st]|] eqn:Hrun;
    [|discriminate Hrun].
  exact (@empty_hostname_rejected listed_parser _ _ _ _
           (@from_encoded listed_parser cert_cn_only) 3%nat v st Hrun).
Defined.

(** ** The cipher wrappers: errors, and opening and closing a handle *)

Section CipherLifecycle.
Import CipherSetup.
Context {backend : CipherBackend} {library : CipherLibrary}.

(** X11.  In the libmcrypt configuration the wrappers report success
    whatever the backend returns, for every handle. *)
Theorem mcrypt_errors_not_reported :
  USE_MCRYPT = true ->
  forall (handle : Z) (text : list Byte.byte) (textlen : Z),
    fst (gnutls_cipher_encrypt handle text textlen) = 0 /\
    fst (gnutls_cipher_decrypt handle text textlen) = 0.
Proof.
  intros Hm handle text textlen.
  unfold gnutls_cipher_encrypt, gnutls_cipher_decrypt. rewrite Hm.
  destruct (negb (handle =? GNUTLS_CIPHER_FAILED)); [|now split].
  destruct (mcrypt_generic handle text textlen).
  now destruct (mdecrypt_generic handle text textlen).
Qed.

(** X12.  In the libgcrypt configuration, on a live handle,
    [gnutls_cipher_encrypt] and [gnutls_cipher_decrypt] return 0 when the
    backend returns 0 and [GNUTLS_E_UNKNOWN_ERROR] for every other result
    of the backend; in both cases the buffer is the one the backend
    left. *)
Theorem gcrypt_errors_become_unknown_error :
  USE_MCRYPT = false ->
  forall (handle : Z) (text : list Byte.byte) (textlen : Z),
    handle <> GNUTLS_CIPHER_FAILED ->
    (fst (gcry_cipher_encrypt handle text textlen) = 0 ->
     fst (gnutls_cipher_encrypt handle text textlen) = 0) /\
    (fst (gcry_cipher_encrypt handle text textlen) <> 0 ->
     fst (gnutls_cipher_encrypt handle text textlen)
     = GNUTLS_E_UNKNOWN_ERROR) /\
    snd (gnutls_cipher_encrypt handle text textlen)
    = snd (gcry_cipher_encrypt handle text textlen) /\
    (fst (gcry_cipher_decrypt handle text textlen) = 0 ->
     fst (gnutls_cipher_decrypt handle text textlen) = 0) /\
    (fst (gcry_cipher_decrypt handle text textlen) <> 0 ->
     fst (gnutls_cipher_decrypt handle text textlen)
     = GNUTLS_E_UNKNOWN_ERROR) /\
    snd (gnutls_cipher_decrypt handle text textlen)
    = snd (gcry_cipher_decrypt handle text textlen).
Proof.
  intros Hm handle text textlen Hh.
  unfold gnutls_cipher_encrypt, gnutls_cipher_decrypt. rewrite Hm.
  apply Z.eqb_neq in Hh. rewrite Hh. cbn [negb].
  destruct (gcry_cipher_encrypt handle text textlen) as [r t].
  destruct (gcry_cipher_decrypt handle text textlen) as [r' t'].
  cbn [fst snd].
  destruct (Z.eqb_spec r 0); destruct (Z.eqb_spec r' 0); cbn [negb fst snd];
    repeat split; intros; congruence.
Qed.

(** X13.  The NULL cipher, and any algorithm the [switch] does not name,
    never reach the crypto library: [gnutls_cipher_init] returns
    [GNUTLS_CIPHER_FAILED] and leaves the library as it was, encryption
    and decryption with the handle it returned return 0 and leave the
    buffer as it was, and [gnutls_cipher_deinit] of that handle leaves the
    library as it was. *)
Theorem null_cipher_passes_through :
  forall (cipher : BulkCipherAlgorithm),
    cipher = GNUTLS_NULL_CIPHER \/ (exists v, cipher = other_algorithm v) ->
    forall (key iv : gnutls_datum) (w : world)
           (text : list Byte.byte) (textlen : Z),
      gnutls_cipher_init cipher key iv w = Some (GNUTLS_CIPHER_FAILED, w) /\
      (forall handle w',
         gnutls_cipher_init cipher key iv w = Some (handle, w') ->
         gnutls_cipher_encrypt handle text textlen = (0, text) /\
         gnutls_cipher_decrypt handle text textlen = (0, text) /\
         gnutls_cipher_deinit handle w' = w).
Proof.
  intros cipher Hc key iv w text textlen.
  assert (gnutls_cipher_init cipher key iv w
          = Some (GNUTLS_CIPHER_FAILED, w)) as Hinit.
  { unfold gnutls_cipher_init.
    destruct Hc as [->|[v ->]]; now rewrite Z.eqb_refl. }
  split; [exact Hinit|]. rewrite Hinit. intros handle w' [= <- <-].
  unfold gnutls_cipher_encrypt, gnutls_cipher_decrypt, gnutls_cipher_deinit.
  now rewrite Z.eqb_refl.
Qed.

(** In the libmcrypt configuration [gnutls_cipher_init] opens the module
    of [mcrypt_module], keys it unless the opening failed, and returns the
    handle unless the key setup failed. *)
Lemma gnutls_cipher_init_mcrypt (cipher : BulkCipherAlgorithm)
    (key iv : gnutls_datum) (w : world) :
  USE_MCRYPT = true ->
  gnutls_cipher_init cipher key iv w =
  match mcrypt_module cipher with
  | None => Some (GNUTLS_CIPHER_FAILED, w)
  | Some (algorithm, mode) =>
      let '(ret, w1) := mcrypt_module_open algorithm mode w in
      if negb (ret =? GNUTLS_CIPHER_FAILED) then
        let '(r, w2) :=
          mcrypt_generic_init ret (data key) (size key) (data iv) w1 in
        if r <? 0 then Some (GNUTLS_CIPHER_FAILED, w2) else Some (ret, w2)
      else Some (ret, w1)
  end.
Proof.
  intros Hm. unfold gnutls_cipher_init. rewrite Hm.
  destruct cipher; cbn [mcrypt_module];
    try (now rewrite Z.eqb_refl);
    match goal with
    | |- context [mcrypt_module_open ?a ?m w] =>
        destruct (mcrypt_module_open a m w) as [h w1]
    end;
    reflexivity.
Qed.

(** X14.  In the libmcrypt configuration, when the key setup
    ([mcrypt_generic_init]) of the module that the call opens for its
    algorithm fails with a negative result, [gnutls_cipher_init] returns
    [GNUTLS_CIPHER_FAILED], and encryption with the handle it returned
    reports success and leaves the text as it was. *)
Theorem failed_key_setup_passes_plaintext :
  USE_MCRYPT = true ->
  forall (cipher : BulkCipherAlgorithm) (key iv : gnutls_datum) (w : world)
         (algorithm mode : string),
    mcrypt_module cipher = Some (algorithm, mode) ->
    fst (mcrypt_generic_init
           (fst (mcrypt_module_open algorithm mode w))
           (data key) (size key) (data iv)
           (snd (mcrypt_module_open algorithm mode w))) < 0 ->
    (exists w',
       gnutls_cipher_init cipher key iv w
       = Some (GNUTLS_CIPHER_FAILED, w')) /\
    (forall handle w' (text : list Byte.byte) (textlen : Z),
       gnutls_cipher_init cipher key iv w = Some (handle, w') ->
       handle = GNUTLS_CIPHER_FAILED /\
       gnutls_cipher_encrypt handle text textlen = (0, text)).
Proof.
  intros Hm cipher key iv w algorithm mode Hmod Hfail.
  assert (exists w', gnutls_cipher_init cipher key iv w
                     = Some (GNUTLS_CIPHER_FAILED, w')) as [w0 Hinit].
  { rewrite (gnutls_cipher_init_mcrypt cipher key iv w Hm), Hmod.
    destruct (mcrypt_module_open algorithm mode w) as [h w1].
    cbn [fst snd] in Hfail.
    destruct (Z.eqb_spec h GNUTLS_CIPHER_FAILED) as [->|_]; cbn [negb];
      [now exists w1|].
    destruct (mcrypt_generic_init h (data key) (size key) (data iv) w1)
      as [r w2].
    cbn [fst] in Hfail. apply Z.ltb_lt in Hfail. rewrite Hfail.
    now exists w2. }
  split; [now exists w0|].
  intros handle w' text textlen. rewrite Hinit. intros [= <- <-].
  split; [reflexivity|].
  unfold gnutls_cipher_encrypt. now rewrite Z.eqb_refl.
Qed.

(** X15.  In the libmcrypt configuration [gnutls_cipher_init] returns,
    and a handle other than [GNUTLS_CIPHER_FAILED] that it returns is the
    handle of a module the library opened, whose key setup with the given
    key and IV did not fail; the library is left in the state after that
    setup. *)
Theorem live_handle_has_key_set :
  USE_MCRYPT = true ->
  forall (cipher : BulkCipherAlgorithm) (key iv : gnutls_datum) (w : world),
    exists handle w',
      gnutls_cipher_init cipher key iv w = Some (handle, w') /\
      (handle <> GNUTLS_CIPHER_FAILED ->
       exists algorithm mode,
         fst (mcrypt_module_open algorithm mode w) = handle /\
         0 <= fst (mcrypt_generic_init
                     (fst (mcrypt_module_open algorithm mode w))
                     (data key) (size key) (data iv)
                     (snd (mcrypt_module_open algorithm mode w))) /\
         w' = snd (mcrypt_generic_init
                     (fst (mcrypt_module_open algorithm mode w))
                     (data key) (size key) (data iv)
                     (snd (mcrypt_module_open algorithm mode w)))).
Proof.
  intros Hm cipher key iv w.
  rewrite (gnutls_cipher_init_mcrypt cipher key iv w Hm).
  destruct (mcrypt_module cipher) as [[algorithm mode]|];
    [|exists GNUTLS_CIPHER_FAILED, w; split; [reflexivity|congruence]].
  destruct (mcrypt_module_open algorithm mode w) as [h w1] eqn:Hopen.
  destruct (Z.eqb_spec h GNUTLS_CIPHER_FAILED) as [->|_]; cbn [negb];
    [exists GNUTLS_CIPHER_FAILED, w1; split; [reflexivity|congruence]|].
  destruct (mcrypt_generic_init h (data key) (size key) (data iv) w1)
    as [r w2] eqn:Hinit.
  destruct (Z.ltb_spec r 0) as [Hneg|Hpos];
    [exists GNUTLS_CIPHER_FAILED, w2; split; [reflexivity|congruence]|].
  exists h, w2. split; [reflexivity|]. intros _.
  exists algorithm, mode. rewrite Hopen. cbn [fst snd]. rewrite Hinit.
  cbn [fst snd]. repeat split. exact Hpos.
Qed.

End CipherLifecycle.

Lemma mcrypt_errors_not_reported_witness :
  fst (@gnutls_cipher_encrypt Fixtures.failing_mcrypt
         7 [Byte.x01; Byte.x02] 2) = 0 /\
  fst (@gnutls_cipher_decrypt Fixtures.failing_mcrypt
         7 [Byte.x01; Byte.x02] 2) = 0.
Proof.
  apply (@mcrypt_errors_not_reported Fixtures.failing_mcrypt).
  reflexivity.
Defined.

Lemma gcrypt_errors_become_unknown_error_witness :
  fst (@gnutls_cipher_encrypt Fixtures.failing_gcrypt
         7 [Byte.x01; Byte.x02] 2) = -21.
Proof.
  refine (proj1 (proj2 (@gcrypt_errors_become_unknown_error
                          Fixtures.failing_gcrypt _
                          7 [Byte.x01; Byte.x02] 2 _)) _).
  - reflexivity.
  - discriminate.
  - discriminate.
Defined.

Lemma null_cipher_passes_through_witness :
  @CipherSetup.gnutls_cipher_init
    Fixtures.failing_mcrypt Fixtures.logging_library
    CipherSetup.GNUTLS_NULL_CIPHER Fixtures.short_key Fixtures.short_key []
  = Some (0, []) /\
  (forall handle w',
     @CipherSetup.gnutls_cipher_init
       Fixtures.failing_mcrypt Fixtures.logging_library
       CipherSetup.GNUTLS_NULL_CIPHER Fixtures.short_key Fixtures.short_key []
     = Some (handle, w') ->
     @gnutls_cipher_encrypt Fixtures.failing_mcrypt
       handle [Byte.x01; Byte.x02] 2 = (0, [Byte.x01; Byte.x02]) /\
     @gnutls_cipher_decrypt Fixtures.failing_mcrypt
       handle [Byte.x01; Byte.x02] 2 = (0, [Byte.x01; Byte.x02]) /\
     @CipherSetup.gnutls_cipher_deinit
       Fixtures.failing_mcrypt Fixtures.logging_library handle w' = []).
Proof.
  apply (@null_cipher_passes_through
           Fixtures.failing_mcrypt Fixtures.logging_library
           CipherSetup.GNUTLS_NULL_CIPHER).
  left. reflexivity.
Defined.

Lemma failed_key_setup_passes_plaintext_witness :
  (exists w',
     @CipherSetup.gnutls_cipher_init
       Fixtures.failing_mcrypt Fixtures.tripledes_fails_library
       CipherSetup.GNUTLS_3DES_CBC Fixtures.short_key Fixtures.short_key []
     = Some (0, w')) /\
  (forall handle w' (text : list Byte.byte) (textlen : Z),
     @CipherSetup.gnutls_cipher_init
       Fixtures.failing_mcrypt Fixtures.tripledes_fails_library
       CipherSetup.GNUTLS_3DES_CBC Fixtures.short_key Fixtures.short_key []
     = Some (handle, w') ->
     handle = 0 /\
     @gnutls_cipher_encrypt Fixtures.failing_mcrypt handle text textlen
     = (0, text)).
Proof.
  apply (@failed_key_setup_passes_plaintext
           Fixtures.failing_mcrypt Fixtures.tripledes_fails_library
           eq_refl CipherSetup.GNUTLS_3DES_CBC
           Fixtures.short_key Fixtures.short_key []
           "tripledes"%string "cbc"%string).
  - reflexivity.
  - now vm_compute.
Defined.

Lemma live_handle_has_key_set_witness :
  exists handle w',
    @CipherSetup.gnutls_cipher_init
      Fixtures.failing_mcrypt Fixtures.tripledes_fails_library
      CipherSetup.GNUTLS_ARCFOUR Fixtures.short_key Fixtures.short_key []
    = Some (handle, w') /\
    (handle <> 0 ->
     exists algorithm mode,
       fst (@CipherSetup.mcrypt_module_open Fixtures.tripledes_fails_library
              algorithm mode []) = handle /\
       0 <= fst (@CipherSetup.mcrypt_generic_init
                   Fixtures.tripledes_fails_library
                   (fst (@CipherSetup.mcrypt_module_open
                           Fixtures.tripledes_fails_library
                           algorithm mode []))
                   (CipherSetup.data Fixtures.short_key)
                   (CipherSetup.size Fixtures.short_key)
                   (CipherSetup.data Fixtures.short_key)
                   (snd (@CipherSetup.mcrypt_module_open
                           Fixtures.tripledes_fails_library
                           algorithm mode []))) /\
       w' = snd (@CipherSetup.mcrypt_generic_init
                   Fixtures.tripledes_fails_library
                   (fst (@CipherSetup.mcrypt_module_open
                           Fixtures.tripledes_fails_library
                           algorithm mode []))
                   (CipherSetup.data Fixtures.short_key)
                   (CipherSetup.size Fixtures.short_key)
                   (CipherSetup.data Fixtures.short_key)
                   (snd (@CipherSetup.mcrypt_module_open
                           Fixtures.tripledes_fails_library
                           algorithm mode [])))).
Proof.
  apply (@live_handle_has_key_set
           Fixtures.failing_mcrypt Fixtures.tripledes_fails_library).
  reflexivity.
Defined.
